(** * GitNexus: KuzuDB bulk-load pipeline

    A shallow embedding of
    - [src/core/kuzu/csv-generator.ts] (sanitization, CSV escaping, binary
      detection, content extraction, node and edge snapshots),
    - [src/core/kuzu/kuzu-adapter.ts] (lifecycle of the embedded engine, bulk
      load, ad hoc and prepared queries, batched execution, statistics),
    - [src/workers/ingestion.worker.ts] (the semantic-search entry points),
    followed by the properties established about them.

    JavaScript strings are sequences of UTF-16 code units; a regular expression
    without the [u] flag, [charCodeAt], [length], [slice] and [split] all work
    on code units, so a string is modelled as a list of code units.
    JavaScript numbers that the code divides and compares are IEEE binary64
    values and are modelled with the primitive floats of the kernel. *)

From Stdlib Require Import ZArith NArith List Bool Lia String Ascii.
From Stdlib Require Import Numbers.DecimalString.
From Stdlib Require Import Floats.PrimFloat Numbers.Cyclic.Int63.Uint63.
From stdpp Require Import base option list gmap strings.

Set Warnings "-inexact-float".
Local Open Scope Z_scope.

(** ** JavaScript strings and arrays *)

Abbreviation jsstring := (list N).

(** A string literal of the source (all literals of these files are ASCII). *)
Definition lit (s : string) : jsstring :=
  List.map N_of_ascii (list_ascii_of_string s).

(** Relative index resolution of [Array.prototype.slice] and
    [String.prototype.slice]: a negative index counts from the end. *)
Definition rel_index (len k : Z) : Z :=
  if k <? 0 then Z.max (len + k) 0 else Z.min k len.

Definition slice {A : Type} (l : list A) (start stop : Z) : list A :=
  let len := Z.of_nat (length l) in
  let k := rel_index len start in
  let final := rel_index len stop in
  take (Z.to_nat (final - k)) (drop (Z.to_nat k) l).

(** [s.split(sep)] for a one-unit separator: never the empty array. *)
Fixpoint split_on (sep : N) (s : jsstring) : list jsstring :=
  match s with
  | [] => [[]]
  | c :: rest =>
      if (c =? sep)%N then [] :: split_on sep rest
      else match split_on sep rest with
           | [] => [[c]]
           | l :: ls => (c :: l) :: ls
           end
  end.

(** [parts.join(sep)]. *)
Fixpoint join (sep : jsstring) (parts : list jsstring) : jsstring :=
  match parts with
  | [] => []
  | [p] => p
  | p :: ps => p ++ sep ++ join sep ps
  end.

(** A character class of a regular expression: a list of inclusive ranges. *)
Definition char_class := list (N * N).

Definition in_class (cls : char_class) (c : N) : bool :=
  existsb (fun r => (fst r <=? c)%N && (c <=? snd r)%N) cls.

(** [s.replace(/[cls]/g, '')]. *)
Definition remove_class (cls : char_class) (s : jsstring) : jsstring :=
  List.filter (fun c => negb (in_class cls c)) s.

(** [s.replace(/c/g, by)] for a one-unit pattern. *)
Definition replace_all (c : N) (by_ : jsstring) (s : jsstring) : jsstring :=
  flat_map (fun x => if (x =? c)%N then by_ else [x]) s.

(** Values that reach the serializer and that the engine hands back in rows:
    [undefined], [null], integer-valued numbers and strings. *)
Inductive JSVal :=
| JUndefined
| JNull
| JNum (z : Z)
| JStr (s : jsstring).

(** [String(z)] of an integer-valued number: its plain decimal digits. This
    is what JavaScript prints for the safe integers, [|z| <= 2^53 - 1]
    ([Number.MAX_SAFE_INTEGER]); beyond them a number is printed with its
    shortest round-trip digits and, from 1e21, in exponent notation, which
    this definition does not follow. Every statement about a printed number
    therefore takes it in the safe range ([safe_integer] below). *)
Definition String_of_Z (z : Z) : jsstring :=
  lit (NilEmpty.string_of_int (Z.to_int z)).

(** [String(v)]. *)
Definition String_of (v : JSVal) : jsstring :=
  match v with
  | JUndefined => lit "undefined"
  | JNull => lit "null"
  | JNum z => String_of_Z z
  | JStr s => s
  end.

(** Code units named in the source. *)
Definition DQUOTE : N := 34%N.
Definition LF : N := 10%N.

(** The number of a [length] or of a counter, as a binary64 value. *)
Definition Number_of_nat (n : nat) : float :=
  PrimFloat.of_uint63 (Uint63.of_Z (Z.of_nat n)).

(** ** csv-generator.ts *)

Module CsvGenerator.

(** [/[\x00-\x08\x0B\x0C\x0E-\x1F\x7F]/] *)
Definition control_class : char_class :=
  [(0, 8); (11, 11); (12, 12); (14, 31); (127, 127)]%N.

(** [/[\uD800-\uDFFF]/] *)
Definition surrogate_class : char_class := [(55296, 57343)]%N.

(** The class of the code units FFFE and FFFF. *)
Definition nonchar_class : char_class := [(65534, 65534); (65535, 65535)]%N.

Definition sanitizeUTF8 (str : jsstring) : jsstring :=
  remove_class nonchar_class
    (remove_class surrogate_class
       (remove_class control_class str)).

Definition escapeCSVField (value : JSVal) : jsstring :=
  match value with
  | JUndefined | JNull => [DQUOTE; DQUOTE]
  | _ =>
      let str := String_of value in
      let str := sanitizeUTF8 str in
      [DQUOTE] ++ replace_all DQUOTE [DQUOTE; DQUOTE] str ++ [DQUOTE]
  end.

Definition escapeCSVNumber (value : option Z) (defaultValue : Z) : jsstring :=
  match value with
  | None => String_of_Z defaultValue
  | Some v => String_of_Z v
  end.

(** The test of the counting loop on one code unit. *)
Definition nonPrintable_code (code : N) : bool :=
  (code <? 9)%N || ((13 <? code)%N && (code <? 32)%N) || (code =? 127)%N.

(** The loop [for (i = 0; i < sample.length; i++)] with its counter. *)
Definition count_nonPrintable (sample : jsstring) : nat :=
  fold_left (fun n code => if nonPrintable_code code then S n else n) sample 0%nat.

Definition isBinaryContent (content : jsstring) : bool :=
  match content with
  | [] => false
  | _ =>
      let sample := slice content 0 1000 in
      let nonPrintable := count_nonPrintable sample in
      PrimFloat.ltb 0.1%float
        (PrimFloat.div (Number_of_nat nonPrintable) (Number_of_nat (length sample)))
  end.

Record NodeProperties := {
  name : jsstring;
  filePath : jsstring;
  startLine : option Z;
  endLine : option Z;
}.

Record GraphNode := {
  id : jsstring;
  label : jsstring;
  properties : NodeProperties;
}.

Record GraphRelationship := {
  sourceId : jsstring;
  targetId : jsstring;
  type : jsstring;
}.

Record KnowledgeGraph := {
  nodes : list GraphNode;
  relationships : list GraphRelationship;
}.

Definition truncation_marker : jsstring := LF :: lit "... [truncated]".
Definition binary_placeholder : jsstring := lit "[Binary file - content not stored]".
Definition MAX_FILE_CONTENT : Z := 10000.
Definition MAX_SNIPPET : Z := 5000.
Definition contextLines : Z := 2.

Definition extractContent (node : GraphNode) (fileContents : gmap jsstring jsstring)
  : jsstring :=
  let filePath := filePath (properties node) in
  match fileContents !! filePath with
  | None | Some [] => []
  | Some content =>
      if bool_decide (label node = lit "Folder") then []
      else if isBinaryContent content then binary_placeholder
      else if bool_decide (label node = lit "File") then
        if MAX_FILE_CONTENT <? Z.of_nat (length content)
        then slice content 0 MAX_FILE_CONTENT ++ truncation_marker
        else content
      else
        match startLine (properties node), endLine (properties node) with
        | Some startLine, Some endLine =>
            let lines := split_on LF content in
            let start := Z.max 0 (startLine - contextLines) in
            let end_ := Z.min (Z.of_nat (length lines) - 1) (endLine + contextLines) in
            let snippet := join [LF] (slice lines start (end_ + 1)) in
            if MAX_SNIPPET <? Z.of_nat (length snippet)
            then slice snippet 0 MAX_SNIPPET ++ truncation_marker
            else snippet
        | _, _ => []
        end
  end.

(** [a || ''] on strings. *)
Definition or_empty (s : jsstring) : jsstring :=
  match s with [] => [] | _ => s end.

Definition generateNodeCSV (graph : KnowledgeGraph) (fileContents : gmap jsstring jsstring)
  : jsstring :=
  let headers := [lit "id"; lit "label"; lit "name"; lit "filePath";
                  lit "startLine"; lit "endLine"; lit "content"] in
  let rows :=
    join (lit ",") headers ::
    List.map (fun node =>
      let content := extractContent node fileContents in
      join (lit ",")
        [ escapeCSVField (JStr (id node));
          escapeCSVField (JStr (label node));
          escapeCSVField (JStr (or_empty (name (properties node))));
          escapeCSVField (JStr (or_empty (filePath (properties node))));
          escapeCSVNumber (startLine (properties node)) (-1);
          escapeCSVNumber (endLine (properties node)) (-1);
          escapeCSVField (JStr content) ]) (nodes graph) in
  join [LF] rows.

Definition generateEdgeCSV (graph : KnowledgeGraph) : jsstring :=
  let headers := [lit "from"; lit "to"; lit "type"] in
  let rows :=
    join (lit ",") headers ::
    List.map (fun rel =>
      join (lit ",")
        [ escapeCSVField (JStr (sourceId rel));
          escapeCSVField (JStr (targetId rel));
          escapeCSVField (JStr (type rel)) ]) (relationships graph) in
  join [LF] rows.

End CsvGenerator.

(** ** Reference definitions that follow the specification's words *)

Module Rfc4180.

(** The inside of an escaped field, after its opening quote: a doubled quote
    stands for one quote, a single quote closes the field, every other code
    unit is data. Returns the field's value and the input that follows it. *)
Fixpoint parse_escaped (s : jsstring) : option (jsstring * jsstring) :=
  match s with
  | [] => None
  | c :: rest =>
      if (c =? DQUOTE)%N then
        match rest with
        | c' :: rest' =>
            if (c' =? DQUOTE)%N
            then match parse_escaped rest' with
                 | Some (v, r) => Some (DQUOTE :: v, r)
                 | None => None
                 end
            else Some ([], rest)
        | [] => Some ([], [])
        end
      else match parse_escaped rest with
           | Some (v, r) => Some (c :: v, r)
           | None => None
           end
  end.

(** A quoted field: an opening quote, then [parse_escaped]. *)
Definition parse_quoted_field (s : jsstring) : option (jsstring * jsstring) :=
  match s with
  | c :: rest => if (c =? DQUOTE)%N then parse_escaped rest else None
  | [] => None
  end.

End Rfc4180.

Module SanitizeSpec.

Definition is_high_surrogate (c : N) : bool := (55296 <=? c)%N && (c <=? 56319)%N.
Definition is_low_surrogate (c : N) : bool := (56320 <=? c)%N && (c <=? 57343)%N.
Definition is_surrogate (c : N) : bool := (55296 <=? c)%N && (c <=? 57343)%N.

(** Control characters other than tab (9), newline (10) and carriage return
    (13), as the source's class has them: the C0 controls and DEL. *)
Definition is_stripped_control (c : N) : bool :=
  ((c <? 32)%N && negb ((c =? 9)%N || (c =? 10)%N || (c =? 13)%N)) || (c =? 127)%N.

Definition is_nonchar (c : N) : bool := (c =? 65534)%N || (c =? 65535)%N.

(** Sanitization as the specification words it: a surrogate is removed only
    when it is not part of a well-formed high/low pair. *)
Fixpoint strip_as_specified (s : jsstring) : jsstring :=
  match s with
  | [] => []
  | c :: rest =>
      if is_high_surrogate c then
        match rest with
        | d :: rest' =>
            if is_low_surrogate d then c :: d :: strip_as_specified rest'
            else strip_as_specified rest
        | [] => []
        end
      else if is_low_surrogate c || is_stripped_control c || is_nonchar c
      then strip_as_specified rest
      else c :: strip_as_specified rest
  end.

(** What one pass over the code units removes. *)
Definition is_removed (c : N) : bool :=
  is_stripped_control c || is_surrogate c || is_nonchar c.

End SanitizeSpec.

(** ** The embedded engine as the adapter sees it *)

Record Error := { message : jsstring }.

(** A row object: property name to value ([row.cnt], [row[0]]). *)
Definition JSObject := gmap string JSVal.

(** A value bound to a [$name] placeholder: a scalar or a numeric vector. *)
Inductive ParamVal :=
| PScalar (v : JSVal)
| PVector (v : list float).

Definition Params := gmap string ParamVal.

Inductive KuzuModule := MkKuzuModule (h : nat).
Inductive Database := MkDatabase (h : nat).
Inductive Connection := MkConnection (h : nat).

(** A prepared statement with what [isSuccess()] and [getErrorMessage()]
    answer. *)
Record PreparedStatement := {
  stmt_handle : nat;
  isSuccess : bool;
  getErrorMessage : jsstring;
}.

(** A result cursor: the rows it still yields, ending normally or in a
    failure of [hasNext()]/[getNext()]. *)
Inductive QueryResult :=
| ResEnd
| ResRow (row : JSObject) (rest : QueryResult)
| ResFail (e : Error).

(** The calls that leave the modelled code, indexed by what they answer. *)
Inductive Call : Type -> Type :=
| ImportKuzu : Call KuzuModule
| KuzuInit : KuzuModule -> Call unit
| NewDatabase : KuzuModule -> jsstring -> Z -> Call Database
| NewConnection : KuzuModule -> Database -> Call Connection
| ConnQuery : Connection -> jsstring -> Call QueryResult
| ConnPrepare : Connection -> jsstring -> Call PreparedStatement
| ConnExecute : Connection -> PreparedStatement -> Params -> Call QueryResult
| StmtClose : PreparedStatement -> Call unit
| ConnClose : Connection -> Call unit
| DbClose : Database -> Call unit
| FsUnlink : KuzuModule -> jsstring -> Call unit
| FsWriteFile : KuzuModule -> jsstring -> jsstring -> Call unit
| SetTimeout0 : Call unit
| ImportAdapter : Call unit
| DoSemanticSearch : jsstring -> float -> float -> Call (list JSObject)
| DoSemanticSearchWithContext : jsstring -> float -> float -> Call (list JSObject).

Definition AnyCall : Type := { T : Type & Call T }.
Definition ev {T : Type} (c : Call T) : AnyCall := existT T c.

(** A JavaScript number as [Number(...)] of a count yields it. *)
Inductive Num :=
| NaN
| Int (z : Z).

(** What lies outside the modelled files: the engine and the runtime, which
    answer a call knowing every call made before it; the constants of
    [./schema]; the language's string-to-number conversion. *)
Record Env := {
  respond : forall T : Type, list AnyCall -> Call T -> Error + T;
  NODE_SCHEMA : jsstring;
  EDGE_SCHEMA : jsstring;
  EMBEDDING_SCHEMA : jsstring;
  NODE_TABLE_NAME : jsstring;
  EDGE_TABLE_NAME : jsstring;
  StringToNumber : jsstring -> Num;
}.

(** Module-level variables of the adapter and of the worker, and the calls
    made so far. *)
Record World := {
  kuzu : option KuzuModule;
  db : option Database;
  conn : option Connection;
  kuzuAdapter : bool;
  isEmbeddingComplete : bool;
  log : list AnyCall;
}.

Definition initial_world : World :=
  {| kuzu := None; db := None; conn := None;
     kuzuAdapter := false; isEmbeddingComplete := false; log := [] |}.

(** ** Asynchronous code: state, exceptions *)

Inductive Result (A : Type) :=
| Ok (a : A)
| Throw (e : Error).
Arguments Ok {A} a.
Arguments Throw {A} e.

Definition M (A : Type) : Type := World -> Result A * World.

Definition ret {A : Type} (a : A) : M A := fun w => (Ok a, w).

Definition bind {A B : Type} (m : M A) (k : A -> M B) : M B :=
  fun w => match m w with
           | (Ok a, w') => k a w'
           | (Throw e, w') => (Throw e, w')
           end.

Definition throw {A : Type} (e : Error) : M A := fun w => (Throw e, w).

(** [try { m } catch (e) { handler e }] *)
Definition try_catch {A : Type} (m : M A) (handler : Error -> M A) : M A :=
  fun w => match m w with
           | (Ok a, w') => (Ok a, w')
           | (Throw e, w') => handler e w'
           end.

(** [try { m } finally { fin }]: an exception of [fin] replaces the outcome
    of [m]. *)
Definition try_finally {A : Type} (m : M A) (fin : M unit) : M A :=
  fun w => match m w with
           | (r, w') =>
               match fin w' with
               | (Ok _, w'') => (r, w'')
               | (Throw e, w'') => (Throw e, w'')
               end
           end.

Declare Scope js_scope.
Delimit Scope js_scope with js.
Notation "'let*' x ':=' m 'in' k" := (bind m (fun x => k))
  (at level 10, x name, m at level 100, k at level 200) : js_scope.
Notation "'await' m 'in' k" := (bind m (fun _ => k))
  (at level 10, m at level 100, k at level 200) : js_scope.
Local Open Scope js_scope.

Definition read {A : Type} (f : World -> A) : M A := fun w => (Ok (f w), w).

Definition set_kuzu (v : option KuzuModule) : M unit :=
  fun w => (Ok tt, {| kuzu := v; db := db w; conn := conn w;
                      kuzuAdapter := kuzuAdapter w;
                      isEmbeddingComplete := isEmbeddingComplete w; log := log w |}).
Definition set_db (v : option Database) : M unit :=
  fun w => (Ok tt, {| kuzu := kuzu w; db := v; conn := conn w;
                      kuzuAdapter := kuzuAdapter w;
                      isEmbeddingComplete := isEmbeddingComplete w; log := log w |}).
Definition set_conn (v : option Connection) : M unit :=
  fun w => (Ok tt, {| kuzu := kuzu w; db := db w; conn := v;
                      kuzuAdapter := kuzuAdapter w;
                      isEmbeddingComplete := isEmbeddingComplete w; log := log w |}).
Definition set_kuzuAdapter (v : bool) : M unit :=
  fun w => (Ok tt, {| kuzu := kuzu w; db := db w; conn := conn w;
                      kuzuAdapter := v;
                      isEmbeddingComplete := isEmbeddingComplete w; log := log w |}).

Definition record_call (c : AnyCall) (w : World) : World :=
  {| kuzu := kuzu w; db := db w; conn := conn w;
     kuzuAdapter := kuzuAdapter w;
     isEmbeddingComplete := isEmbeddingComplete w; log := log w ++ [c] |}.

(** [await c]: the call is recorded, and its answer is a value or an
    exception. *)
Definition perform (env : Env) {T : Type} (c : Call T) : M T :=
  fun w => match respond env T (log w) c with
           | inl e => (Throw e, record_call (ev c) w)
           | inr v => (Ok v, record_call (ev c) w)
           end.

(** [await new Promise(r => setTimeout(r, 0))]: one tick, which cannot fail. *)
Definition yield_tick : M unit :=
  fun w => (Ok tt, record_call (ev SetTimeout0) w).

(** Member access on a variable that may hold [null]. *)
Definition deref {A : Type} (what : string) (o : option A) : M A :=
  match o with
  | Some a => ret a
  | None => throw {| message := lit "TypeError: Cannot read properties of null" ++ lit what |}
  end.

(** ** kuzu-adapter.ts *)

Module KuzuAdapter.

Section WithEnv.
Variable env : Env.

(** What [initKuzu] returns: the three module variables. *)
Record Handles := {
  h_db : option Database;
  h_conn : option Connection;
  h_kuzu : option KuzuModule;
}.

Definition current_handles : M Handles :=
  read (fun w => {| h_db := db w; h_conn := conn w; h_kuzu := kuzu w |}).

Definition BUFFER_POOL_SIZE : Z := 512 * 1024 * 1024.

(** [conn.query(cypher)] on a variable that may hold [null]. *)
Definition conn_query (c : option Connection) (cypher : jsstring) : M QueryResult :=
  let* c := deref ".query" c in
  perform env (ConnQuery c cypher).

Definition initKuzu : M Handles :=
  let* c := read conn in
  match c with
  | Some _ => current_handles
  | None =>
      try_catch
        (let* kuzuModule := perform env ImportKuzu in
         await set_kuzu (Some kuzuModule) in
         await perform env (KuzuInit kuzuModule) in
         let* d := perform env (NewDatabase kuzuModule (lit ":memory:") BUFFER_POOL_SIZE) in
         await set_db (Some d) in
         let* c := perform env (NewConnection kuzuModule d) in
         await set_conn (Some c) in
         await try_catch
           (await conn_query (Some c) (NODE_SCHEMA env) in
            await conn_query (Some c) (EDGE_SCHEMA env) in
            await conn_query (Some c) (EMBEDDING_SCHEMA env) in
            ret tt)
           (fun _ => ret tt) in
         current_handles)
        (fun error => throw error)
  end.

(** [truthy(v)], [a || b], [a ?? b], [Number(v)]. *)
Definition truthy (v : JSVal) : bool :=
  match v with
  | JUndefined | JNull => false
  | JNum z => negb (z =? 0)
  | JStr s => match s with [] => false | _ => true end
  end.

Definition js_or (a b : JSVal) : JSVal := if truthy a then a else b.

Definition nullish (a b : JSVal) : JSVal :=
  match a with
  | JUndefined | JNull => b
  | _ => a
  end.

Definition Number (v : JSVal) : Num :=
  match v with
  | JUndefined => NaN
  | JNull => Int 0
  | JNum z => Int z
  | JStr s => StringToNumber env s
  end.

(** [row.p] and [row[0]]: [undefined] when the property is missing. *)
Definition prop (row : JSObject) (p : string) : JSVal :=
  match row !! p with
  | Some v => v
  | None => JUndefined
  end.

(** [await result.getNext()]: the next row, or nothing at the end. *)
Definition getNext (result : QueryResult) : M (option JSObject) :=
  match result with
  | ResEnd => ret None
  | ResRow row _ => ret (Some row)
  | ResFail e => throw e
  end.

(** [while (await result.hasNext()) { rows.push(await result.getNext()) }] *)
Fixpoint collect_rows (result : QueryResult) (rows : list JSObject) : M (list JSObject) :=
  match result with
  | ResEnd => ret rows
  | ResRow row rest => collect_rows rest (rows ++ [row])
  | ResFail e => throw e
  end.

Record LoadResult := {
  success : bool;
  count : Num;
}.

Definition nodesPath : jsstring := lit "/nodes.csv".
Definition edgesPath : jsstring := lit "/edges.csv".

Definition copy_nodes_statement : jsstring :=
  lit "COPY " ++ NODE_TABLE_NAME env
    ++ lit "(id, label, name, filePath, startLine, endLine, content) FROM "
    ++ [DQUOTE] ++ nodesPath ++ [DQUOTE] ++ lit " (HEADER=true, PARALLEL=false)".

Definition copy_edges_statement : jsstring :=
  lit "COPY " ++ EDGE_TABLE_NAME env ++ lit " FROM "
    ++ [DQUOTE] ++ edgesPath ++ [DQUOTE] ++ lit " (HEADER=true, PARALLEL=false)".

Definition count_nodes_statement : jsstring :=
  lit "MATCH (n:" ++ NODE_TABLE_NAME env ++ lit ") RETURN count(n) AS cnt".

Definition count_edges_statement : jsstring :=
  lit "MATCH ()-[r:" ++ EDGE_TABLE_NAME env ++ lit "]->() RETURN count(r) AS cnt".

(** [try { await fs.unlink(path); } catch {}] *)
Definition unlink_quietly (fs : KuzuModule) (path : jsstring) : M unit :=
  try_catch (perform env (FsUnlink fs path)) (fun _ => ret tt).

(** [countRow ? countRow.cnt || countRow[0] || 0 : 0] *)
Definition load_nodeCount (countRow : option JSObject) : JSVal :=
  match countRow with
  | Some countRow => js_or (js_or (prop countRow "cnt") (prop countRow "0")) (JNum 0)
  | None => JNum 0
  end.

Definition loadGraphToKuzu
    (graph : CsvGenerator.KnowledgeGraph) (fileContents : gmap jsstring jsstring)
  : M LoadResult :=
  let* h := initKuzu in
  let conn := h_conn h in
  let kuzu := h_kuzu h in
  try_catch
    (let nodesCSV := CsvGenerator.generateNodeCSV graph fileContents in
     let edgesCSV := CsvGenerator.generateEdgeCSV graph in
     let* fs := deref ".FS" kuzu in
     await unlink_quietly fs nodesPath in
     await unlink_quietly fs edgesPath in
     await perform env (FsWriteFile fs nodesPath nodesCSV) in
     await perform env (FsWriteFile fs edgesPath edgesCSV) in
     await conn_query conn copy_nodes_statement in
     await conn_query conn copy_edges_statement in
     let* countRes := conn_query conn count_nodes_statement in
     let* countRow := getNext countRes in
     let nodeCount := load_nodeCount countRow in
     await unlink_quietly fs nodesPath in
     await unlink_quietly fs edgesPath in
     ret {| success := true; count := Number nodeCount |})
    (fun error => ret {| success := false; count := Int 0 |}).

(** [if (!conn) { await initKuzu(); }] *)
Definition ensure_initialized : M unit :=
  let* c := read conn in
  match c with
  | Some _ => ret tt
  | None => await initKuzu in ret tt
  end.

Definition executeQuery (cypher : jsstring) : M (list JSObject) :=
  await ensure_initialized in
  try_catch
    (let* c := read conn in
     let* result := conn_query c cypher in
     collect_rows result [])
    (fun error => throw error).

Record KuzuStats := {
  nodes : Num;
  edges : Num;
}.

(** [row ? (row.cnt ?? row[0] ?? 0) : 0] *)
Definition stats_count (row : option JSObject) : JSVal :=
  match row with
  | Some row => nullish (nullish (prop row "cnt") (prop row "0")) (JNum 0)
  | None => JNum 0
  end.

Definition getKuzuStats : M KuzuStats :=
  let* c := read conn in
  match c with
  | None => ret {| nodes := Int 0; edges := Int 0 |}
  | Some _ =>
      try_catch
        (let* nodeResult := conn_query c count_nodes_statement in
         let* edgeResult := conn_query c count_edges_statement in
         let* nodeRow := getNext nodeResult in
         let* edgeRow := getNext edgeResult in
         let nodeCount := stats_count nodeRow in
         let edgeCount := stats_count edgeRow in
         ret {| nodes := Number nodeCount; edges := Number edgeCount |})
        (fun error => ret {| nodes := Int 0; edges := Int 0 |})
  end.

Definition isKuzuReady (w : World) : bool :=
  match conn w, db w with
  | Some _, Some _ => true
  | _, _ => false
  end.

Definition closeKuzu : M unit :=
  let* c := read conn in
  await match c with
        | Some c =>
            await try_catch (perform env (ConnClose c)) (fun _ => ret tt) in
            set_conn None
        | None => ret tt
        end in
  let* d := read db in
  await match d with
        | Some d =>
            await try_catch (perform env (DbClose d)) (fun _ => ret tt) in
            set_db None
        | None => ret tt
        end in
  set_kuzu None.

Definition prepare_failed (errMsg : jsstring) : Error :=
  {| message := lit "Prepare failed: " ++ errMsg |}.

Definition executePrepared (cypher : jsstring) (params : Params) : M (list JSObject) :=
  await ensure_initialized in
  try_catch
    (let* c := read conn in
     let* c := deref ".prepare" c in
     let* stmt := perform env (ConnPrepare c cypher) in
     await (if negb (isSuccess stmt)
            then throw (prepare_failed (getErrorMessage stmt))
            else ret tt) in
     let* result := perform env (ConnExecute c stmt params) in
     let* rows := collect_rows result [] in
     await perform env (StmtClose stmt) in
     ret rows)
    (fun error => throw error).

Definition SUB_BATCH_SIZE : Z := 4.

(** [for (const params of subBatch) { await conn.execute(stmt, params); }] *)
Fixpoint execute_each (c : Connection) (stmt : PreparedStatement) (subBatch : list Params)
  : M unit :=
  match subBatch with
  | [] => ret tt
  | params :: rest =>
      await perform env (ConnExecute c stmt params) in
      execute_each c stmt rest
  end.

Definition out_of_fuel : Error := {| message := lit "loop bound exceeded" |}.

(** The loop [for (let i = 0; i < paramsList.length; i += SUB_BATCH_SIZE)],
    from a given [i]. Every round advances [i] by 4, so a bound of
    [paramsList.length] rounds is never reached (see [sub_batches_fuel]). *)
Fixpoint sub_batches (fuel : nat) (cypher : jsstring) (paramsList : list Params) (i : Z)
  : M unit :=
  if i <? Z.of_nat (length paramsList) then
    match fuel with
    | O => throw out_of_fuel
    | S fuel =>
        let subBatch := slice paramsList i (i + SUB_BATCH_SIZE) in
        let* c := read conn in
        let* c := deref ".prepare" c in
        let* stmt := perform env (ConnPrepare c cypher) in
        await (if negb (isSuccess stmt)
               then throw (prepare_failed (getErrorMessage stmt))
               else ret tt) in
        await try_finally
          (execute_each c stmt subBatch)
          (perform env (StmtClose stmt)) in
        await (if i + SUB_BATCH_SIZE <? Z.of_nat (length paramsList)
               then yield_tick
               else ret tt) in
        sub_batches fuel cypher paramsList (i + SUB_BATCH_SIZE)
    end
  else ret tt.

Definition executeWithReusedStatement (cypher : jsstring) (paramsList : list Params)
  : M unit :=
  await ensure_initialized in
  match paramsList with
  | [] => ret tt
  | _ => sub_batches (length paramsList) cypher paramsList 0
  end.

End WithEnv.

End KuzuAdapter.

(** ** ingestion.worker.ts: the semantic-search entry points *)

Module IngestionWorker.

Section WithEnv.
Variable env : Env.

Definition getKuzuAdapter : M unit :=
  let* loaded := read kuzuAdapter in
  if negb loaded
  then await perform env ImportAdapter in set_kuzuAdapter true
  else ret tt.

Definition database_not_ready : Error :=
  {| message := lit "Database not ready. Please load a repository first." |}.

Definition embeddings_not_ready : Error :=
  {| message := lit "Embeddings not ready. Please wait for embedding pipeline to complete." |}.

(** A parameter with a default value: [undefined] takes the default. *)
Definition with_default (v : option float) (d : float) : float :=
  match v with
  | Some v => v
  | None => d
  end.

Definition semanticSearch (query : jsstring) (k maxDistance : option float)
  : M (list JSObject) :=
  let k := with_default k 10%float in
  let maxDistance := with_default maxDistance 0.5%float in
  await getKuzuAdapter in
  let* ready := read KuzuAdapter.isKuzuReady in
  await (if negb ready then throw database_not_ready else ret tt) in
  let* complete := read isEmbeddingComplete in
  await (if negb complete then throw embeddings_not_ready else ret tt) in
  perform env (DoSemanticSearch query k maxDistance).

Definition semanticSearchWithContext (query : jsstring) (k hops : option float)
  : M (list JSObject) :=
  let k := with_default k 5%float in
  let hops := with_default hops 2%float in
  await getKuzuAdapter in
  let* ready := read KuzuAdapter.isKuzuReady in
  await (if negb ready then throw database_not_ready else ret tt) in
  let* complete := read isEmbeddingComplete in
  await (if negb complete then throw embeddings_not_ready else ret tt) in
  perform env (DoSemanticSearchWithContext query k hops).

End WithEnv.

End IngestionWorker.

(** ** Auxiliary definitions used by the proofs *)

(** [start, start+1, ..., start+count-1]. *)
Fixpoint zseq (start : Z) (count : nat) : list Z :=
  match count with
  | O => []
  | S c => start :: zseq (start + 1) c
  end.

(** The comparison [n / len > 0.1] of [isBinaryContent], on integers. *)
Definition ratio_exceeds_tenth (n len : Z) : bool :=
  PrimFloat.ltb 0.1%float
    (PrimFloat.div (PrimFloat.of_uint63 (Uint63.of_Z n))
                   (PrimFloat.of_uint63 (Uint63.of_Z len))).

(** The sample lengths 1..1000 and the counts 0..1000 on which the binary64
    comparison is checked against the exact one, [10 * n > len]. *)
Definition table_counts : list Z := zseq 0 1001.
Definition table_lengths : list Z := zseq 1 1000.

Definition table_entry (n len : Z) : bool :=
  if n <=? len then Bool.eqb (ratio_exceeds_tenth n len) (len <? 10 * n) else true.

(** Code units 0-8, 14-31 and 127. *)
Definition is_control_code (c : N) : bool :=
  (c <=? 8)%N || ((14 <=? c)%N && (c <=? 31)%N) || (c =? 127)%N.


Definition truncated (snippet : jsstring) : jsstring :=
  if 5000 <? Z.of_nat (length snippet)
  then take 5000 snippet ++ CsvGenerator.truncation_marker
  else snippet.

(** ** Sample inputs *)

Module Samples.
Import CsvGenerator.


Definition binary_files : gmap jsstring jsstring :=
  {[ lit "blob.bin" := [0; 0; 0; 0]%N ]}.

(** The same file, with line bounds on the node. *)
Definition binary_method_node : GraphNode :=
  {| id := lit "Method:blob.bin:m"; label := lit "Method";
     properties := {| name := lit "m"; filePath := lit "blob.bin";
                      startLine := Some 0; endLine := Some 1 |} |}.

(** The three-line text "a\nb\nc". *)
Definition abc : jsstring := [97; 10; 98; 10; 99]%N.

Definition text_files : gmap jsstring jsstring := {[ lit "a.py" := abc ]}.

Definition function_node (startLine endLine : option Z) : GraphNode :=
  {| id := lit "Function:a.py:f"; label := lit "Function";
     properties := {| name := lit "f"; filePath := lit "a.py";
                      startLine := startLine; endLine := endLine |} |}.

End Samples.

(** ** Reading the log *)

(** What a recorded call is, for the purposes of batched execution. *)
Inductive Kind :=
| KPrepare (cypher : jsstring)
| KExecute (params : Params)
| KClose
| KTick
| KOther.

Definition kind_of (c : AnyCall) : Kind :=
  match projT2 c with
  | ConnPrepare _ cypher => KPrepare cypher
  | ConnExecute _ _ params => KExecute params
  | StmtClose _ => KClose
  | SetTimeout0 => KTick
  | _ => KOther
  end.

Definition is_close (k : Kind) : bool :=
  match k with KClose => true | _ => false end.

Definition is_search (c : AnyCall) : bool :=
  match projT2 c with
  | DoSemanticSearch _ _ _ | DoSemanticSearchWithContext _ _ _ => true
  | _ => false
  end.



Definition executed (k : Kind) : option Params :=
  match k with KExecute p => Some p | _ => None end.

Definition is_prepare (k : Kind) : bool :=
  match k with KPrepare _ => true | _ => false end.


(** The row that [getNext()] hands out first, if the cursor has one. *)
Definition next_row (result : QueryResult) : option JSObject :=
  match result with
  | ResRow row _ => Some row
  | _ => None
  end.

(** An engine that never fails to prepare a statement; executions and
    releases may fail. *)
Definition prepares_always (env : Env) : Prop :=
  forall h c q, exists stmt,
    respond env PreparedStatement h (ConnPrepare c q) = inr stmt
    /\ isSuccess stmt = true.

(** The statements whose [close()] was called, in the order of the calls. *)
Definition closed_stmt (call : AnyCall) : option PreparedStatement :=
  match projT2 call with
  | StmtClose stmt => Some stmt
  | _ => None
  end.

Definition closed_stmts (calls : list AnyCall) : list PreparedStatement :=
  omap closed_stmt calls.

(** The statements the engine handed out for the [prepare] calls among
    [calls], made after the calls [h], in the order of the calls. *)
Definition prepared_stmt (env : Env) (h : list AnyCall) (call : AnyCall)
  : list PreparedStatement :=
  match projT2 call with
  | ConnPrepare c cypher =>
      match respond env PreparedStatement h (ConnPrepare c cypher) with
      | inr stmt => [stmt]
      | inl _ => []
      end
  | _ => []
  end.

Fixpoint prepared_stmts (env : Env) (h : list AnyCall) (calls : list AnyCall)
  : list PreparedStatement :=
  match calls with
  | [] => []
  | call :: rest => prepared_stmt env h call ++ prepared_stmts env (h ++ [call]) rest
  end.

(** The statement each [execute] call was given, in the order of the calls. *)
Definition executed_stmt (call : AnyCall) : option PreparedStatement :=
  match projT2 call with
  | ConnExecute _ stmt _ => Some stmt
  | _ => None
  end.

(** A log in which statements are used one at a time: a statement that
    [isSuccess()] is prepared only when none is open, executions use the open
    statement, a release is of the open statement, nothing follows a
    preparation that failed, and no statement is open after the last call.
    [open] is the statement open before the calls. *)
Fixpoint one_at_a_time (env : Env) (h : list AnyCall) (open : option PreparedStatement)
    (calls : list AnyCall) : Prop :=
  match calls with
  | [] => open = None
  | call :: rest =>
      match projT2 call with
      | ConnPrepare c cypher =>
          match respond env PreparedStatement h (ConnPrepare c cypher) with
          | inr stmt =>
              open = None
              /\ if isSuccess stmt
                 then one_at_a_time env (h ++ [call]) (Some stmt) rest
                 else rest = []
          | inl _ => open = None /\ rest = []
          end
      | ConnExecute _ stmt _ =>
          open = Some stmt /\ one_at_a_time env (h ++ [call]) open rest
      | StmtClose stmt =>
          open = Some stmt /\ one_at_a_time env (h ++ [call]) None rest
      | _ => one_at_a_time env (h ++ [call]) open rest
      end
  end.

(** ** The bulk load with the outcome of serialization made explicit *)

Module BulkLoad.

Section WithEnv.
Variable env : Env.

(** The outcome of a call that makes no call to the engine. *)
Definition outcome {A : Type} (r : Result A) : M A := fun w => (r, w).

(** The [try { ... } catch { ... }] of [loadGraphToKuzu], after [initKuzu]
    has handed out [h]. The two serializer calls, [generateNodeCSV(graph,
    fileContents)] and [generateEdgeCSV(graph)], are taken by their outcome:
    the text, or the error raised (a [RangeError: Invalid string length] on a
    snapshot beyond the runtime's string limit, which a list cannot show). *)
Definition load_after_init (nodes edges : Result jsstring) (h : KuzuAdapter.Handles)
  : M KuzuAdapter.LoadResult :=
  let conn := KuzuAdapter.h_conn h in
  let kuzu := KuzuAdapter.h_kuzu h in
  try_catch
    (let* nodesCSV := outcome nodes in
     let* edgesCSV := outcome edges in
     let* fs := deref ".FS" kuzu in
     await KuzuAdapter.unlink_quietly env fs KuzuAdapter.nodesPath in
     await KuzuAdapter.unlink_quietly env fs KuzuAdapter.edgesPath in
     await perform env (FsWriteFile fs KuzuAdapter.nodesPath nodesCSV) in
     await perform env (FsWriteFile fs KuzuAdapter.edgesPath edgesCSV) in
     await KuzuAdapter.conn_query env conn (KuzuAdapter.copy_nodes_statement env) in
     await KuzuAdapter.conn_query env conn (KuzuAdapter.copy_edges_statement env) in
     let* countRes :=
       KuzuAdapter.conn_query env conn (KuzuAdapter.count_nodes_statement env) in
     let* countRow := KuzuAdapter.getNext countRes in
     let nodeCount := KuzuAdapter.load_nodeCount countRow in
     await KuzuAdapter.unlink_quietly env fs KuzuAdapter.nodesPath in
     await KuzuAdapter.unlink_quietly env fs KuzuAdapter.edgesPath in
     ret {| KuzuAdapter.success := true;
            KuzuAdapter.count := KuzuAdapter.Number env nodeCount |})
    (fun error => ret {| KuzuAdapter.success := false; KuzuAdapter.count := Int 0 |}).

(** [loadGraphToKuzu], for given outcomes of the two serializer calls. *)
Definition loadGraphToKuzu_from (nodes edges : Result jsstring)
  : M KuzuAdapter.LoadResult :=
  let* h := KuzuAdapter.initKuzu env in
  load_after_init nodes edges h.

(** The nine calls of a bulk load that runs to its end, on module [fs] and
    connection [c], for the two snapshots. *)
Definition load_calls (fs : KuzuModule) (c : Connection) (nodesCSV edgesCSV : jsstring)
  : list AnyCall :=
  [ ev (FsUnlink fs KuzuAdapter.nodesPath);
    ev (FsUnlink fs KuzuAdapter.edgesPath);
    ev (FsWriteFile fs KuzuAdapter.nodesPath nodesCSV);
    ev (FsWriteFile fs KuzuAdapter.edgesPath edgesCSV);
    ev (ConnQuery c (KuzuAdapter.copy_nodes_statement env));
    ev (ConnQuery c (KuzuAdapter.copy_edges_statement env));
    ev (ConnQuery c (KuzuAdapter.count_nodes_statement env));
    ev (FsUnlink fs KuzuAdapter.nodesPath);
    ev (FsUnlink fs KuzuAdapter.edgesPath) ].

(** Whether the engine answers call [c], made after the calls [h], with a
    value rather than an error. *)
Definition answered (h : list AnyCall) (c : AnyCall) : bool :=
  match respond env (projT1 c) h (projT2 c) with
  | inr _ => true
  | inl _ => false
  end.

End WithEnv.

(** The removal of a staging file, whose failure the loader ignores. *)
Definition is_unlink (c : AnyCall) : bool :=
  match projT2 c with
  | FsUnlink _ _ => true
  | _ => false
  end.

(** In a run that starts after the calls [h0]: call number [k] of [calls]
    is the first one, removals apart, that the engine fails. *)
Definition first_failure (env : Env) (h0 calls : list AnyCall) (k : nat) : Prop :=
  (exists call, calls !! k = Some call
                /\ is_unlink call = false
                /\ answered env (h0 ++ take k calls) call = false)
  /\ forall i call, (i < k)%nat -> calls !! i = Some call -> is_unlink call = false ->
       answered env (h0 ++ take i calls) call = true.

(** No call of [calls], removals apart, is failed by the engine. *)
Definition no_failure (env : Env) (h0 calls : list AnyCall) : Prop :=
  forall i call, calls !! i = Some call -> is_unlink call = false ->
    answered env (h0 ++ take i calls) call = true.

End BulkLoad.

(** ** Sample environments *)

Module SampleEnv.

Definition one_row : QueryResult := ResRow {[ "cnt" := JNum 3 ]} ResEnd.

Definition engine_down : Error := {| message := lit "engine failure" |}.

(** Every call succeeds; a query or an execution yields one row
    [{cnt: 3}]; a statement's handle is the number of calls before it. *)
Definition respond_ok (T : Type) (h : list AnyCall) (c : Call T) : Error + T :=
  match c in Call T return Error + T with
  | ImportKuzu => inr (MkKuzuModule 0)
  | KuzuInit _ => inr tt
  | NewDatabase _ _ _ => inr (MkDatabase 0)
  | NewConnection _ _ => inr (MkConnection 0)
  | ConnQuery _ _ => inr one_row
  | ConnPrepare _ _ =>
      inr {| stmt_handle := length h; isSuccess := true; getErrorMessage := [] |}
  | ConnExecute _ _ _ => inr one_row
  | StmtClose _ => inr tt
  | ConnClose _ => inr tt
  | DbClose _ => inr tt
  | FsUnlink _ _ => inr tt
  | FsWriteFile _ _ _ => inr tt
  | SetTimeout0 => inr tt
  | ImportAdapter => inr tt
  | DoSemanticSearch _ _ _ => inr []
  | DoSemanticSearchWithContext _ _ _ => inr []
  end.

(** As [respond_ok], but every execution of a prepared statement fails. *)
Definition respond_execute_fails (T : Type) (h : list AnyCall) (c : Call T) : Error + T :=
  match c in Call T return Error + T with
  | ConnExecute _ _ _ => inl engine_down
  | c => respond_ok _ h c
  end.

(** As [respond_ok], but the engine's module cannot be loaded. *)
Definition respond_no_module (T : Type) (h : list AnyCall) (c : Call T) : Error + T :=
  match c in Call T return Error + T with
  | ImportKuzu => inl engine_down
  | c => respond_ok _ h c
  end.

Definition with_respond (r : forall T : Type, list AnyCall -> Call T -> Error + T) : Env :=
  {| respond := r;
     NODE_SCHEMA := lit "CREATE NODE TABLE CodeNode";
     EDGE_SCHEMA := lit "CREATE REL TABLE CodeRelation";
     EMBEDDING_SCHEMA := lit "CREATE NODE TABLE CodeEmbedding";
     NODE_TABLE_NAME := lit "CodeNode";
     EDGE_TABLE_NAME := lit "CodeRelation";
     StringToNumber := fun _ => NaN |}.

Definition ok : Env := with_respond respond_ok.
Definition execute_fails : Env := with_respond respond_execute_fails.
Definition no_module : Env := with_respond respond_no_module.

(** The adapter after a successful initialization. *)
Definition ready_world : World :=
  {| kuzu := Some (MkKuzuModule 0); db := Some (MkDatabase 0);
     conn := Some (MkConnection 0);
     kuzuAdapter := true; isEmbeddingComplete := false; log := [] |}.

Definition empty_graph : CsvGenerator.KnowledgeGraph :=
  {| CsvGenerator.nodes := []; CsvGenerator.relationships := [] |}.

Definition set_embedding : jsstring :=
  lit "MATCH (n:CodeNode {id: $nodeId}) SET n.embedding = $embedding".

Definition param (n : Z) : Params := {[ "nodeId" := PScalar (JNum n) ]}.

Definition ten_params : list Params := List.map param (zseq 1 10).

End SampleEnv.

(** The integers that a JavaScript number holds exactly and prints in plain
    decimal: [-(2^53 - 1) .. 2^53 - 1]. *)
Definition safe_integer (z : Z) : Prop :=
  -9007199254740991 <= z <= 9007199254740991.

(** A line number, when present, is a safe integer. *)
Definition safe_line (v : option Z) : Prop :=
  match v with
  | Some n => safe_integer n
  | None => True
  end.

(** Every node of the graph has safe line numbers. *)
Definition safe_lines (graph : CsvGenerator.KnowledgeGraph) : Prop :=
  Forall (fun node =>
            safe_line (CsvGenerator.startLine (CsvGenerator.properties node))
            /\ safe_line (CsvGenerator.endLine (CsvGenerator.properties node)))
         (CsvGenerator.nodes graph).

(** A decimal digit or a minus sign. *)
Definition digit_or_minus (c : N) : Prop := c = 45%N \/ (48 <= c <= 57)%N.

(** ** A reader of CSV documents *)

Module CsvReader.

Definition COMMA : N := 44%N.

(** Where the reader is: at the start of a field, inside an unquoted field,
    inside a quoted field, or just after the closing quote of one. *)
Inductive Mode := Start | Unquoted | Quoted | Closed.

Definition Records := option (list (list jsstring)).

(** A code unit more in front of the field being read. *)
Definition push (c : N) (rows : Records) : Records :=
  match rows with
  | Some ((f :: fs) :: rs) => Some (((c :: f) :: fs) :: rs)
  | _ => None
  end.

(** A comma: one field more in front of the record being read. *)
Definition new_field (rows : Records) : Records :=
  match rows with
  | Some (fs :: rs) => Some (([] :: fs) :: rs)
  | _ => None
  end.

(** A line break: one record more in front. *)
Definition new_record (rows : Records) : Records :=
  match rows with
  | Some rs => Some ([[]] :: rs)
  | None => None
  end.

(** Records are separated by line feeds and fields by commas. A field that
    opens with a quote runs to its closing quote, with a doubled quote for a
    quote and with commas and line feeds as data; after the closing quote only
    a comma, a line feed or the end may follow. A quote inside an unquoted
    field and an unterminated quoted field are errors. *)
Fixpoint scan (m : Mode) (s : jsstring) : Records :=
  match s with
  | [] =>
      match m with
      | Quoted => None
      | _ => Some [[[]]]
      end
  | c :: r =>
      match m with
      | Quoted =>
          if (c =? DQUOTE)%N then
            match r with
            | d :: r' =>
                if (d =? DQUOTE)%N then push DQUOTE (scan Quoted r')
                else scan Closed r
            | [] => scan Closed r
            end
          else push c (scan Quoted r)
      | _ =>
          if (c =? COMMA)%N then new_field (scan Start r)
          else if (c =? LF)%N then new_record (scan Start r)
          else match m with
               | Start =>
                   if (c =? DQUOTE)%N then scan Quoted r
                   else push c (scan Unquoted r)
               | Unquoted =>
                   if (c =? DQUOTE)%N then None
                   else push c (scan Unquoted r)
               | _ => None
               end
      end
  end.

Definition read_csv (s : jsstring) : Records := scan Start s.

(** What may follow a field: nothing, a comma or a line feed. *)
Definition boundary (rest : jsstring) : Prop :=
  match rest with
  | [] => True
  | c :: _ => c = COMMA \/ c = LF
  end.

(** A code unit that needs no quoting. *)
Definition plain_unit (c : N) : Prop := c <> COMMA /\ c <> LF /\ c <> DQUOTE.

(** A cell as written, paired with the value it stands for. *)
Definition reads_as (text value : jsstring) : Prop :=
  forall rest, boundary rest ->
    scan Start (text ++ rest) = fold_right push (scan Start rest) value.

End CsvReader.

(** ** More sample inputs *)

Module MoreSamples.
Import CsvGenerator.

Definition file_node : GraphNode :=
  {| id := lit "File:a.py"; label := lit "File";
     properties := {| name := lit "a.py"; filePath := lit "a.py";
                      startLine := None; endLine := None |} |}.

Definition one_function_graph : KnowledgeGraph :=
  {| nodes := [Samples.function_node (Some 1) (Some 1)]; relationships := [] |}.

Definition folder_node : GraphNode :=
  {| id := lit "Folder:src"; label := lit "Folder";
     properties := {| name := lit "src"; filePath := lit "a.py";
                      startLine := None; endLine := None |} |}.

End MoreSamples.

(** What draining a cursor gives: its rows in order, or the failure it ends
    in. *)
Fixpoint cursor_rows (result : QueryResult) : Error + list JSObject :=
  match result with
  | ResEnd => inr []
  | ResRow row rest =>
      match cursor_rows rest with
      | inr rows => inr (row :: rows)
      | inl e => inl e
      end
  | ResFail e => inl e
  end.

(** ** ingestion.worker.ts: the query entry points *)

Module IngestionWorkerApi.

Section WithEnv.
Variable env : Env.

(** [runQuery]: the engine must be ready; the query itself is returned
    without [await], outside any handler. *)
Definition runQuery (cypher : jsstring) : M (list JSObject) :=
  let* _ := IngestionWorker.getKuzuAdapter env in
  let* ready := read KuzuAdapter.isKuzuReady in
  let* _ := (if negb ready then throw IngestionWorker.database_not_ready else ret tt) in
  KuzuAdapter.executeQuery env cypher.

(** [isReady]: a failure to load the adapter answers [false]. *)
Definition isReady : M bool :=
  try_catch
    (let* _ := IngestionWorker.getKuzuAdapter env in
     read KuzuAdapter.isKuzuReady)
    (fun _ => ret false).

(** [getStats]: a failure to load the adapter answers zero counts; the
    adapter's promise is returned from inside the [try] without [await], so
    the handler does not cover it. *)
Definition getStats : M KuzuAdapter.KuzuStats :=
  let* loaded :=
    try_catch
      (let* _ := IngestionWorker.getKuzuAdapter env in ret true)
      (fun _ => ret false) in
  if loaded
  then KuzuAdapter.getKuzuStats env
  else ret {| KuzuAdapter.nodes := Int 0; KuzuAdapter.edges := Int 0 |}.

End WithEnv.

End IngestionWorkerApi.

(** ** More sample environments *)

Module MoreEnv.

Definition parser_exception : jsstring := lit "Parser exception: invalid input".

(** As [SampleEnv.respond_ok], but every ad hoc statement fails. *)
Definition respond_query_fails (T : Type) (h : list AnyCall) (c : Call T) : Error + T :=
  match c in Call T return Error + T with
  | ConnQuery _ _ => inl SampleEnv.engine_down
  | c => SampleEnv.respond_ok _ h c
  end.

(** As [SampleEnv.respond_ok], but no statement can be prepared. *)
Definition respond_prepare_rejected (T : Type) (h : list AnyCall) (c : Call T)
  : Error + T :=
  match c in Call T return Error + T with
  | ConnPrepare _ _ =>
      inr {| stmt_handle := length h; isSuccess := false;
             getErrorMessage := parser_exception |}
  | c => SampleEnv.respond_ok _ h c
  end.

Definition query_fails : Env := SampleEnv.with_respond respond_query_fails.
Definition prepare_rejected : Env := SampleEnv.with_respond respond_prepare_rejected.

End MoreEnv.

(** * Properties *)

(** ** Strings, slices *)

Lemma slice_prefix {A : Type} (l : list A) (n : Z) :
  0 <= n -> slice l 0 n = take (Z.to_nat n) l.
Proof.
  intros Hn. unfold slice, rel_index.
  change (0 <? 0) with false. cbv iota.
  destruct (Z.ltb_spec n 0) as [En|En]; [lia|].
  rewrite (Z.min_l 0) by lia. simpl. rewrite Z.sub_0_r.
  destruct (Z.le_ge_cases n (Z.of_nat (length l))) as [H|H].
  - now rewrite Z.min_l by lia.
  - rewrite Z.min_r by lia. rewrite Nat2Z.id.
    rewrite !take_ge; auto; lia.
Qed.

Lemma truncation_marker_length : length CsvGenerator.truncation_marker = 16%nat.
Proof. reflexivity. Qed.

(** ** Sanitization *)

Lemma filter_filter_andb {A : Type} (p q : A -> bool) (l : list A) :
  List.filter q (List.filter p l) = List.filter (fun x => p x && q x) l.
Proof.
  induction l as [|x l IH]; simpl; [reflexivity|].
  destruct (p x); simpl; [destruct (q x)|]; now rewrite IH.
Qed.

(** Boolean identities over comparisons of code units, decided as
    propositions. *)
Ltac bool_to_prop :=
  rewrite ?andb_true_iff, ?orb_true_iff, ?negb_true_iff,
    ?andb_false_iff, ?orb_false_iff, ?negb_false_iff,
    ?N.leb_le, ?N.leb_gt, ?N.ltb_lt, ?N.ltb_ge, ?N.eqb_eq, ?N.eqb_neq.

Ltac solve_code_unit_tests :=
  apply eq_iff_eq_true; repeat bool_to_prop; lia.

Lemma sanitize_keeps_iff (c : N) :
  negb (in_class CsvGenerator.control_class c)
  && negb (in_class CsvGenerator.surrogate_class c)
  && negb (in_class CsvGenerator.nonchar_class c)
  = negb (SanitizeSpec.is_removed c).
Proof.
  unfold SanitizeSpec.is_removed, SanitizeSpec.is_stripped_control,
    SanitizeSpec.is_surrogate, SanitizeSpec.is_nonchar,
    in_class, CsvGenerator.control_class, CsvGenerator.surrogate_class,
    CsvGenerator.nonchar_class.
  cbn [existsb fst snd]. solve_code_unit_tests.
Qed.

Lemma sanitizeUTF8_filter (s : jsstring) :
  CsvGenerator.sanitizeUTF8 s
  = List.filter (fun c => negb (SanitizeSpec.is_removed c)) s.
Proof.
  unfold CsvGenerator.sanitizeUTF8, remove_class.
  rewrite !filter_filter_andb.
  apply List.filter_ext. intros c. rewrite andb_assoc. apply sanitize_keeps_iff.
Qed.

(** On a string without surrogate code units the code and the wording of the
    specification agree. *)
Lemma sanitizeUTF8_agrees_without_surrogates (s : jsstring) :
  Forall (fun c => SanitizeSpec.is_surrogate c = false) s ->
  CsvGenerator.sanitizeUTF8 s = SanitizeSpec.strip_as_specified s.
Proof.
  rewrite sanitizeUTF8_filter.
  induction 1 as [|c s Hc _ IH]; [reflexivity|].
  simpl. rewrite IH.
  assert (Hh : SanitizeSpec.is_high_surrogate c = false).
  { revert Hc. unfold SanitizeSpec.is_surrogate, SanitizeSpec.is_high_surrogate.
    repeat bool_to_prop. lia. }
  assert (Hl : SanitizeSpec.is_low_surrogate c = false).
  { revert Hc. unfold SanitizeSpec.is_surrogate, SanitizeSpec.is_low_surrogate.
    repeat bool_to_prop. lia. }
  rewrite Hh, Hl. unfold SanitizeSpec.is_removed. rewrite Hc. simpl.
  rewrite orb_false_r.
  destruct (SanitizeSpec.is_stripped_control c); simpl; [reflexivity|].
  destruct (SanitizeSpec.is_nonchar c); reflexivity.
Qed.

(** C4 (as amended): [sanitizeUTF8] removes exactly the code units 0-8, 11,
    12, 14-31 and 127 (the control characters other than tab, newline and
    carriage return), every surrogate code unit D800-DFFF whether or not it is
    part of a well-formed pair, and FFFE and FFFF; every other code unit is
    kept, in order. *)
Theorem sanitizeUTF8_removes_exactly (s : jsstring) :
  CsvGenerator.sanitizeUTF8 s
  = List.filter
      (fun c => negb (  (c <=? 8)%N || (c =? 11)%N || (c =? 12)%N
                     || ((14 <=? c)%N && (c <=? 31)%N) || (c =? 127)%N
                     || ((55296 <=? c)%N && (c <=? 57343)%N)
                     || (c =? 65534)%N || (c =? 65535)%N)) s.
Proof.
  rewrite sanitizeUTF8_filter. apply List.filter_ext. intros c.
  unfold SanitizeSpec.is_removed, SanitizeSpec.is_stripped_control,
    SanitizeSpec.is_surrogate, SanitizeSpec.is_nonchar.
  solve_code_unit_tests.
Qed.

(** C4 (as stated) fails: the well-formed pair D83D DE00 (U+1F600) is
    removed, where the specification's wording keeps it. *)
Lemma sanitizeUTF8_drops_surrogate_pair :
  SanitizeSpec.is_high_surrogate 55357 = true
  /\ SanitizeSpec.is_low_surrogate 56832 = true
  /\ SanitizeSpec.strip_as_specified [55357; 56832]%N = [55357; 56832]%N
  /\ CsvGenerator.sanitizeUTF8 [55357; 56832]%N = []
  /\ CsvGenerator.sanitizeUTF8 [55357; 56832]%N
     <> SanitizeSpec.strip_as_specified [55357; 56832]%N.
Proof. repeat split; try reflexivity. discriminate. Qed.

(** ** CSV escaping *)

Lemma parse_escaped_doubled (t rest : jsstring) :
  head rest <> Some DQUOTE ->
  Rfc4180.parse_escaped (replace_all DQUOTE [DQUOTE; DQUOTE] t ++ DQUOTE :: rest)
  = Some (t, rest).
Proof.
  intros Hrest. induction t as [|x t IH].
  - simpl. destruct rest as [|c rest']; [reflexivity|].
    destruct (N.eqb_spec c DQUOTE) as [->|Hc]; [now destruct Hrest|].
    reflexivity.
  - unfold replace_all in *. cbn [flat_map].
    destruct (N.eqb_spec x DQUOTE) as [->|Hx].
    + cbn [app Rfc4180.parse_escaped]. rewrite N.eqb_refl.
      fold (Rfc4180.parse_escaped). now rewrite IH.
    + cbn [app Rfc4180.parse_escaped].
      destruct (N.eqb_spec x DQUOTE) as [?|_]; [contradiction|].
      now rewrite IH.
Qed.

(** A field followed by more of the row (a comma, a line break, or nothing)
    is read back as the sanitized string, leaving what follows. *)
Lemma escapeCSVField_parses_in_row (s rest : jsstring) :
  head rest <> Some DQUOTE ->
  Rfc4180.parse_quoted_field (CsvGenerator.escapeCSVField (JStr s) ++ rest)
  = Some (CsvGenerator.sanitizeUTF8 s, rest).
Proof.
  intros Hrest. unfold CsvGenerator.escapeCSVField. cbn [String_of].
  cbn [app Rfc4180.parse_quoted_field]. rewrite N.eqb_refl.
  rewrite <- app_assoc. cbn [app]. now apply parse_escaped_doubled.
Qed.

(** C1: for every string [s], [escapeCSVField] wraps the sanitized string in
    double quotes with every embedded double quote doubled; an RFC-4180 reader
    of quoted fields returns exactly the sanitized [s] and consumes the whole
    field; [undefined] and [null] give the empty quoted field. *)
Theorem escapeCSVField_roundtrip (s : jsstring) :
  CsvGenerator.escapeCSVField (JStr s)
  = [DQUOTE] ++ replace_all DQUOTE [DQUOTE; DQUOTE] (CsvGenerator.sanitizeUTF8 s)
    ++ [DQUOTE]
  /\ Rfc4180.parse_quoted_field (CsvGenerator.escapeCSVField (JStr s))
     = Some (CsvGenerator.sanitizeUTF8 s, [])
  /\ CsvGenerator.escapeCSVField JUndefined = [DQUOTE; DQUOTE]
  /\ CsvGenerator.escapeCSVField JNull = [DQUOTE; DQUOTE]
  /\ Rfc4180.parse_quoted_field [DQUOTE; DQUOTE] = Some ([], []).
Proof.
  split; [reflexivity|]. split; [|repeat split].
  rewrite <- (app_nil_r (CsvGenerator.escapeCSVField (JStr s))).
  apply escapeCSVField_parses_in_row. discriminate.
Qed.

(** ** Binary detection *)

Lemma ratio_table_ok :
  forallb (fun len => forallb (fun n => table_entry n len) table_counts) table_lengths
  = true.
Proof. vm_compute. reflexivity. Qed.

Lemma In_zseq (count : nat) (start z : Z) :
  start <= z < start + Z.of_nat count -> In z (zseq start count).
Proof.
  revert start. induction count as [|count IH]; intros start Hz; [lia|].
  simpl. destruct (Z.eq_dec start z) as [->|Hne]; [now left|].
  right. apply IH. lia.
Qed.

Lemma table_lookup (f : Z -> Z -> bool) (counts lens : list Z) :
  forallb (fun len => forallb (fun n => f n len) counts) lens = true ->
  forall len n, In len lens -> In n counts -> f n len = true.
Proof.
  intros Hall len n Hlen Hn.
  rewrite forallb_forall in Hall. specialize (Hall len Hlen).
  rewrite forallb_forall in Hall. exact (Hall n Hn).
Qed.

Lemma table_entry_ok (n len : nat) :
  (1 <= len <= 1000)%nat -> (n <= len)%nat ->
  table_entry (Z.of_nat n) (Z.of_nat len) = true.
Proof.
  intros Hlen Hn.
  apply (table_lookup table_entry table_counts table_lengths ratio_table_ok).
  - apply In_zseq. lia.
  - apply In_zseq. lia.
Qed.

Lemma ratio_exceeds_tenth_exact (n len : nat) :
  (1 <= len <= 1000)%nat -> (n <= len)%nat ->
  ratio_exceeds_tenth (Z.of_nat n) (Z.of_nat len) = (len <? 10 * n)%nat.
Proof.
  intros Hlen Hn.
  pose proof (table_entry_ok n len Hlen Hn) as Htab.
  unfold table_entry in Htab.
  destruct (Z.leb_spec (Z.of_nat n) (Z.of_nat len)); [|lia].
  apply eqb_prop in Htab. rewrite Htab.
  destruct (Z.ltb_spec (Z.of_nat len) (10 * Z.of_nat n)),
           (Nat.ltb_spec len (10 * n)); try reflexivity; lia.
Qed.

Lemma count_nonPrintable_from (sample : jsstring) (acc : nat) :
  fold_left (fun n code => if CsvGenerator.nonPrintable_code code then S n else n)
    sample acc
  = (acc + length (List.filter is_control_code sample))%nat.
Proof.
  revert acc. induction sample as [|c sample IH]; intros acc; simpl; [lia|].
  rewrite IH.
  assert (E : CsvGenerator.nonPrintable_code c = is_control_code c).
  { unfold CsvGenerator.nonPrintable_code, is_control_code. solve_code_unit_tests. }
  rewrite E. destruct (is_control_code c); simpl; lia.
Qed.

Lemma count_nonPrintable_filter (sample : jsstring) :
  CsvGenerator.count_nonPrintable sample = length (List.filter is_control_code sample).
Proof. apply count_nonPrintable_from. Qed.

Lemma length_filter_le {A : Type} (p : A -> bool) (l : list A) :
  (length (List.filter p l) <= length l)%nat.
Proof. induction l as [|x l IH]; simpl; [lia|]. destruct (p x); simpl; lia. Qed.

Lemma isBinaryContent_exact (content : jsstring) :
  CsvGenerator.isBinaryContent content
  = (length (take 1000 content)
     <? 10 * length (List.filter is_control_code (take 1000 content)))%nat.
Proof.
  destruct content as [|c content]; [reflexivity|].
  unfold CsvGenerator.isBinaryContent.
  rewrite slice_prefix by lia. change (Z.to_nat 1000) with 1000%nat.
  set (sample := take 1000 (c :: content)).
  rewrite count_nonPrintable_filter.
  apply (ratio_exceeds_tenth_exact _ (length sample)).
  - subst sample. rewrite length_take. simpl length. lia.
  - apply length_filter_le.
Qed.

Lemma filter_no_control (content : jsstring) :
  List.filter is_control_code
    (take 1000 (List.filter (fun c => negb (is_control_code c)) content)) = [].
Proof.
  revert content. generalize 1000%nat as k.
  induction k as [|k IH]; intros content; [now rewrite take_0|].
  induction content as [|c content IHc]; [reflexivity|].
  simpl List.filter at 2. destruct (is_control_code c) eqn:E; simpl negb; cbv iota.
  - apply IHc.
  - simpl. rewrite E. apply IH.
Qed.

(** C6: [isBinaryContent] answers [true] exactly when, among the first
    min(1000, length) code units, those with codes 0-8, 14-31 or 127 number
    strictly more than 10% of the sample (the binary64 division and comparison
    of the source agree with the exact ones); it answers [false] on the empty
    string and on any text free of such code units. *)
Theorem isBinaryContent_iff_over_tenth (content : jsstring) :
  CsvGenerator.isBinaryContent content
  = (length (take 1000 content)
     <? 10 * length (List.filter is_control_code (take 1000 content)))%nat
  /\ length (take 1000 content) = Nat.min 1000 (length content)
  /\ CsvGenerator.isBinaryContent [] = false
  /\ CsvGenerator.isBinaryContent
       (List.filter (fun c => negb (is_control_code c)) content) = false.
Proof.
  split; [apply isBinaryContent_exact|].
  split; [apply length_take|].
  split; [reflexivity|].
  rewrite isBinaryContent_exact, filter_no_control. simpl.
  rewrite Nat.ltb_ge. lia.
Qed.

(** ** Content extraction *)




Lemma truncated_length (snippet : jsstring) :
  (length (truncated snippet) <= 5000 + length CsvGenerator.truncation_marker)%nat.
Proof.
  unfold truncated. destruct (Z.ltb_spec 5000 (Z.of_nat (length snippet))).
  - rewrite length_app, length_take. lia.
  - lia.
Qed.


Lemma extractContent_length_code_element
    (node : CsvGenerator.GraphNode) (fc : gmap jsstring jsstring) :
  CsvGenerator.label node <> lit "File" ->
  (length (CsvGenerator.extractContent node fc)
   <= 5000 + length CsvGenerator.truncation_marker)%nat.
Proof.
  intros Hfile. unfold CsvGenerator.extractContent. cbv zeta.
  destruct (fc !! _) as [[|c content]|]; try (simpl; lia).
  destruct (bool_decide _); [simpl; lia|].
  destruct (CsvGenerator.isBinaryContent _); [simpl; lia|].
  rewrite (bool_decide_eq_false_2 _ Hfile).
  destruct (CsvGenerator.startLine (CsvGenerator.properties node)) as [s|],
      (CsvGenerator.endLine (CsvGenerator.properties node)) as [e|];
    try (simpl; lia).
  unfold CsvGenerator.MAX_SNIPPET.
  match goal with |- context [join ?sep ?x] => generalize (join sep x) end.
  intros snippet. rewrite slice_prefix by lia.
  apply truncated_length.
Qed.

(** C10: for a node that is not a Folder and whose file content is present
    and classified binary, [extractContent] returns the placeholder, whatever
    the label and whether or not line bounds are present. *)
Theorem extractContent_binary_placeholder
    (node : CsvGenerator.GraphNode) (fc : gmap jsstring jsstring) (content : jsstring) :
  CsvGenerator.label node <> lit "Folder" ->
  fc !! CsvGenerator.filePath (CsvGenerator.properties node) = Some content ->
  CsvGenerator.isBinaryContent content = true ->
  CsvGenerator.extractContent node fc = lit "[Binary file - content not stored]".
Proof.
  intros Hfolder Hget Hbin. unfold CsvGenerator.extractContent. cbv zeta.
  rewrite Hget.
  destruct content as [|c content]; [discriminate Hbin|].
  rewrite (bool_decide_eq_false_2 _ Hfolder), Hbin. reflexivity.
Qed.

Lemma extractContent_binary_placeholder_witness :
  CsvGenerator.label Samples.binary_method_node <> lit "Folder"
  /\ Samples.binary_files
       !! CsvGenerator.filePath (CsvGenerator.properties Samples.binary_method_node)
     = Some [0; 0; 0; 0]%N
  /\ CsvGenerator.isBinaryContent [0; 0; 0; 0]%N = true
  /\ CsvGenerator.extractContent Samples.binary_method_node Samples.binary_files
     = lit "[Binary file - content not stored]".
Proof.
  assert (H1 : CsvGenerator.label Samples.binary_method_node <> lit "Folder")
    by discriminate.
  assert (H2 : Samples.binary_files
                 !! CsvGenerator.filePath (CsvGenerator.properties Samples.binary_method_node)
               = Some [0; 0; 0; 0]%N) by reflexivity.
  assert (H3 : CsvGenerator.isBinaryContent [0; 0; 0; 0]%N = true) by reflexivity.
  split; [exact H1|]. split; [exact H2|]. split; [exact H3|].
  exact (extractContent_binary_placeholder _ _ _ H1 H2 H3).
Defined.




(** ** The monad *)

Lemma bind_ok {A B : Type} (m : M A) (k : A -> M B) (w w' : World) (a : A) :
  m w = (Ok a, w') -> bind m k w = k a w'.
Proof. intros H. unfold bind. now rewrite H. Qed.

Lemma bind_throw {A B : Type} (m : M A) (k : A -> M B) (w w' : World) (e : Error) :
  m w = (Throw e, w') -> bind m k w = (Throw e, w').
Proof. intros H. unfold bind. now rewrite H. Qed.

Lemma bind_ext {A B : Type} (m : M A) (k1 k2 : A -> M B) (w : World) :
  (forall a w', k1 a w' = k2 a w') -> bind m k1 w = bind m k2 w.
Proof. intros H. unfold bind. destruct (m w) as [[a|e] w']; [apply H|reflexivity]. Qed.

(** ** Prepared execution *)

(** When preparation succeeds and the execution raises, the error reaches
    the caller after exactly two calls: no [stmt.close()]. *)
Lemma executePrepared_execute_failure
    (env : Env) (w : World) (c : Connection) (cypher : jsstring) (params : Params)
    (stmt : PreparedStatement) (e : Error) :
  conn w = Some c ->
  respond env PreparedStatement (log w) (ConnPrepare c cypher) = inr stmt ->
  isSuccess stmt = true ->
  respond env QueryResult (log w ++ [ev (ConnPrepare c cypher)])
    (ConnExecute c stmt params) = inl e ->
  exists w',
    KuzuAdapter.executePrepared env cypher params w = (Throw e, w')
    /\ log w' = log w ++ [ev (ConnPrepare c cypher); ev (ConnExecute c stmt params)].
Proof.
  intros Hc Hprep Hok Hexec.
  unfold KuzuAdapter.executePrepared, KuzuAdapter.ensure_initialized,
    try_catch, bind, read, deref, perform, ret, throw.
  rewrite Hc. cbn. rewrite Hc. cbn. rewrite Hprep, Hok. cbn. rewrite Hexec. cbn.
  eexists. split; [reflexivity|]. cbn. now rewrite <- app_assoc.
Qed.


(** C2 (the code departs from it): on a ready adapter whose engine prepares
    the statement and then fails the execution, [executePrepared] raises the
    engine's error having made two calls, the preparation and the execution;
    the statement is never closed. *)
Theorem executePrepared_leaks_statement_on_failure :
  exists w',
    KuzuAdapter.executePrepared SampleEnv.execute_fails
      SampleEnv.set_embedding (SampleEnv.param 1) SampleEnv.ready_world
    = (Throw SampleEnv.engine_down, w')
    /\ List.map kind_of (log w')
       = [KPrepare SampleEnv.set_embedding; KExecute (SampleEnv.param 1)]
    /\ existsb is_close (List.map kind_of (log w')) = false.
Proof.
  destruct (executePrepared_execute_failure SampleEnv.execute_fails
              SampleEnv.ready_world (MkConnection 0) SampleEnv.set_embedding
              (SampleEnv.param 1)
              {| stmt_handle := 0; isSuccess := true; getErrorMessage := [] |}
              SampleEnv.engine_down eq_refl eq_refl eq_refl eq_refl)
    as (w' & Hrun & Hlog).
  exists w'. split; [exact Hrun|]. rewrite Hlog. split; reflexivity.
Qed.

(** ** Initialization *)

Arguments lit : simpl never.
Arguments CsvGenerator.generateNodeCSV : simpl never.
Arguments CsvGenerator.generateEdgeCSV : simpl never.
Arguments KuzuAdapter.copy_nodes_statement : simpl never.
Arguments KuzuAdapter.copy_edges_statement : simpl never.
Arguments KuzuAdapter.count_nodes_statement : simpl never.
Arguments KuzuAdapter.count_edges_statement : simpl never.
Arguments KuzuAdapter.BUFFER_POOL_SIZE : simpl never.

Ltac unfold_js :=
  unfold KuzuAdapter.conn_query, KuzuAdapter.current_handles,
    KuzuAdapter.unlink_quietly, KuzuAdapter.getNext in *;
  unfold try_catch, try_finally, bind, read, deref, perform, ret, throw,
    yield_tick, set_kuzu, set_db, set_conn, set_kuzuAdapter in *.

(** Case analysis on the answer to the next call. *)
Ltac answer :=
  match goal with
  | |- context [respond ?env ?T ?h ?c] =>
      let E := fresh "E" in destruct (respond env T h c) eqn:E
  end; cbn.

Lemma initKuzu_when_connected (env : Env) (w : World) (c : Connection) :
  conn w = Some c ->
  KuzuAdapter.initKuzu env w
  = (Ok {| KuzuAdapter.h_db := db w; KuzuAdapter.h_conn := conn w;
           KuzuAdapter.h_kuzu := kuzu w |}, w).
Proof. intros Hc. unfold KuzuAdapter.initKuzu. unfold_js. now rewrite !Hc. Qed.

(** A successful initialization leaves the three module variables set, hands
    them out, and has made the calls of the source in order: module import,
    [init()], database, connection, then the schema statements up to the
    first that fails. *)
Lemma initKuzu_ok (env : Env) (w w1 : World) (h : KuzuAdapter.Handles) :
  conn w = None ->
  KuzuAdapter.initKuzu env w = (Ok h, w1) ->
  exists m d c schema_calls,
    kuzu w1 = Some m /\ db w1 = Some d /\ conn w1 = Some c
    /\ h = {| KuzuAdapter.h_db := Some d; KuzuAdapter.h_conn := Some c;
              KuzuAdapter.h_kuzu := Some m |}
    /\ kuzuAdapter w1 = kuzuAdapter w
    /\ isEmbeddingComplete w1 = isEmbeddingComplete w
    /\ log w1
       = log w ++ [ev ImportKuzu; ev (KuzuInit m);
                   ev (NewDatabase m (lit ":memory:") (512 * 1024 * 1024));
                   ev (NewConnection m d);
                   ev (ConnQuery c (NODE_SCHEMA env))] ++ schema_calls
    /\ (schema_calls = []
        \/ schema_calls = [ev (ConnQuery c (EDGE_SCHEMA env))]
        \/ schema_calls = [ev (ConnQuery c (EDGE_SCHEMA env));
                           ev (ConnQuery c (EMBEDDING_SCHEMA env))]).
Proof.
  intros Hc. unfold KuzuAdapter.initKuzu. unfold_js. rewrite Hc.
  repeat answer; intros H; inversion H; subst; clear H; cbn;
    do 3 eexists; rewrite <- ?app_assoc; cbn [app].
  - exists []. repeat split; auto.
  - exists [ev (ConnQuery c (EDGE_SCHEMA env))]. repeat split; auto.
  - exists [ev (ConnQuery c (EDGE_SCHEMA env)); ev (ConnQuery c (EMBEDDING_SCHEMA env))].
    repeat split; auto.
  - exists [ev (ConnQuery c (EDGE_SCHEMA env)); ev (ConnQuery c (EMBEDDING_SCHEMA env))].
    repeat split; auto.
Qed.

(** ** Bulk load *)

(** After [initKuzu] has returned, nothing escapes [loadGraphToKuzu]: the
    outcome is the failure record or a success carrying the count read from
    the verification query. *)
Lemma loadGraphToKuzu_after_init
    (env : Env) (graph : CsvGenerator.KnowledgeGraph) (fc : gmap jsstring jsstring)
    (w w1 : World) (h : KuzuAdapter.Handles) :
  KuzuAdapter.initKuzu env w = (Ok h, w1) ->
  exists r w2,
    KuzuAdapter.loadGraphToKuzu env graph fc w = (Ok r, w2)
    /\ (r = {| KuzuAdapter.success := false; KuzuAdapter.count := Int 0 |}
        \/ exists c past future countRes,
             KuzuAdapter.h_conn h = Some c
             /\ log w2
                = (past ++ [ev (ConnQuery c (KuzuAdapter.count_nodes_statement env))])
                  ++ future
             /\ respond env QueryResult past
                  (ConnQuery c (KuzuAdapter.count_nodes_statement env)) = inr countRes
             /\ r = {| KuzuAdapter.success := true;
                       KuzuAdapter.count :=
                         KuzuAdapter.Number env
                           (KuzuAdapter.load_nodeCount (next_row countRes)) |}).
Proof.
  intros Hinit. unfold KuzuAdapter.loadGraphToKuzu.
  rewrite (bind_ok _ _ _ _ _ Hinit). clear Hinit.
  destruct h as [hd hc hk]. cbn [KuzuAdapter.h_conn KuzuAdapter.h_kuzu].
  unfold_js.
  destruct hk as [fs|], hc as [c|]; cbn;
    repeat first
      [ solve [eexists _, _; split; [reflexivity|now left]]
      | answer
      | match goal with
        | |- context [match ?q with ResEnd => _ | ResRow _ _ => _ | ResFail _ => _ end] =>
            is_var q; destruct q; cbn
        end ];
    (eexists _, _; split; [reflexivity|]; right; cbn;
     do 4 eexists; split; [reflexivity|];
     rewrite <- (app_assoc _ [_] [_]); split; [reflexivity|];
     split; [eassumption|reflexivity]).
Qed.

(** The source's function is the instance for serializer calls that return. *)
Lemma loadGraphToKuzu_as_from
    (env : Env) (graph : CsvGenerator.KnowledgeGraph) (fc : gmap jsstring jsstring)
    (w : World) :
  KuzuAdapter.loadGraphToKuzu env graph fc w
  = BulkLoad.loadGraphToKuzu_from env
      (Ok (CsvGenerator.generateNodeCSV graph fc))
      (Ok (CsvGenerator.generateEdgeCSV graph)) w.
Proof. reflexivity. Qed.

(** An answered call has an answer. *)
Ltac known Hprev i :=
  let H := fresh "H" in
  pose proof (Hprev i _ ltac:(lia) eq_refl eq_refl) as H;
  unfold BulkLoad.answered in H; cbn in H;
  match type of H with
  | match ?r with inl _ => _ | inr _ => _ end = true =>
      let E := fresh "K" in destruct r eqn:E; [discriminate H|clear H]
  end.

Ltac failed H :=
  unfold BulkLoad.answered in H; cbn in H;
  match type of H with
  | match ?r with inl _ => _ | inr _ => _ end = false =>
      let E := fresh "K" in destruct r eqn:E; [clear H|discriminate H]
  end.

Ltac use_known :=
  match goal with
  | K : respond ?env ?T ?h ?c = _ |- context [respond ?env ?T ?h ?c] => rewrite K
  end.

Ltac answer_unlink :=
  match goal with
  | |- context [respond ?env ?T ?h (FsUnlink ?fs ?p)] =>
      let E := fresh "U" in destruct (respond env T h (FsUnlink fs p)) eqn:E
  end.

Ltac run_load :=
  repeat (rewrite <- ?app_assoc; cbn [app]; first [use_known | answer_unlink]; cbn).

Ltac load_done :=
  eexists; split; [reflexivity|]; cbn; now rewrite <- ?app_assoc.

Lemma load_after_init_first_failure
    (env : Env) (fs : KuzuModule) (c : Connection) (hd : option Database)
    (nodesCSV edgesCSV : jsstring) (w1 : World) (k : nat) :
  BulkLoad.first_failure env (log w1) (BulkLoad.load_calls env fs c nodesCSV edgesCSV) k ->
  exists w2,
    BulkLoad.load_after_init env (Ok nodesCSV) (Ok edgesCSV)
      {| KuzuAdapter.h_db := hd; KuzuAdapter.h_conn := Some c;
         KuzuAdapter.h_kuzu := Some fs |} w1
    = (Ok {| KuzuAdapter.success := false; KuzuAdapter.count := Int 0 |}, w2)
    /\ log w2 = log w1 ++ take (S k) (BulkLoad.load_calls env fs c nodesCSV edgesCSV).
Proof.
  intros [(call & Hk & Hun & Hfail) Hprev].
  unfold BulkLoad.load_calls in *.
  unfold BulkLoad.load_after_init, BulkLoad.outcome. unfold_js. cbn.
  destruct k as [|[|[|[|[|[|[|[|[|k]]]]]]]]]; cbn in Hk; inversion Hk; subst call;
    try discriminate Hun; clear Hk Hun; failed Hfail.
  - run_load; load_done.
  - known Hprev 2%nat. run_load; load_done.
  - known Hprev 2%nat. known Hprev 3%nat. run_load; load_done.
  - known Hprev 2%nat. known Hprev 3%nat. known Hprev 4%nat. run_load; load_done.
  - known Hprev 2%nat. known Hprev 3%nat. known Hprev 4%nat. known Hprev 5%nat.
    run_load; load_done.
Qed.

Lemma load_after_init_no_failure
    (env : Env) (fs : KuzuModule) (c : Connection) (hd : option Database)
    (nodesCSV edgesCSV : jsstring) (w1 : World) (countRes : QueryResult) :
  BulkLoad.no_failure env (log w1) (BulkLoad.load_calls env fs c nodesCSV edgesCSV) ->
  respond env QueryResult
    (log w1 ++ take 6 (BulkLoad.load_calls env fs c nodesCSV edgesCSV))
    (ConnQuery c (KuzuAdapter.count_nodes_statement env)) = inr countRes ->
  exists w2,
    BulkLoad.load_after_init env (Ok nodesCSV) (Ok edgesCSV)
      {| KuzuAdapter.h_db := hd; KuzuAdapter.h_conn := Some c;
         KuzuAdapter.h_kuzu := Some fs |} w1
    = (Ok (match countRes with
           | ResFail _ =>
               {| KuzuAdapter.success := false; KuzuAdapter.count := Int 0 |}
           | _ =>
               {| KuzuAdapter.success := true;
                  KuzuAdapter.count :=
                    KuzuAdapter.Number env
                      (KuzuAdapter.load_nodeCount (next_row countRes)) |}
           end), w2)
    /\ log w2
       = log w1
         ++ match countRes with
            | ResFail _ => take 7 (BulkLoad.load_calls env fs c nodesCSV edgesCSV)
            | _ => BulkLoad.load_calls env fs c nodesCSV edgesCSV
            end.
Proof.
  intros Hall Hcount.
  assert (Hprev : forall i call, (i < 9)%nat ->
            BulkLoad.load_calls env fs c nodesCSV edgesCSV !! i = Some call ->
            BulkLoad.is_unlink call = false ->
            BulkLoad.answered env
              (log w1 ++ take i (BulkLoad.load_calls env fs c nodesCSV edgesCSV)) call
            = true) by (intros i call _; apply Hall).
  clear Hall. unfold BulkLoad.load_calls in *. cbn in Hcount.
  unfold BulkLoad.load_after_init, BulkLoad.outcome. unfold_js. cbn.
  known Hprev 2%nat. known Hprev 3%nat. known Hprev 4%nat. known Hprev 5%nat.
  clear Hprev.
  destruct countRes as [|row rest|e]; run_load; load_done.
Qed.

Lemma load_after_init_serialization_failure
    (env : Env) (nodes edges : Result jsstring) (h : KuzuAdapter.Handles) (w1 : World) :
  (exists e, nodes = Throw e) \/ (exists e, edges = Throw e) ->
  BulkLoad.load_after_init env nodes edges h w1
  = (Ok {| KuzuAdapter.success := false; KuzuAdapter.count := Int 0 |}, w1).
Proof.
  intros [[e ->]|[e ->]]; [reflexivity|].
  destruct nodes; reflexivity.
Qed.

Lemma load_after_init_never_raises
    (env : Env) (nodes edges : Result jsstring) (h : KuzuAdapter.Handles) (w1 : World) :
  exists r w2, BulkLoad.load_after_init env nodes edges h w1 = (Ok r, w2).
Proof.
  unfold BulkLoad.load_after_init, BulkLoad.outcome.
  destruct h as [hd hc hk]. cbn [KuzuAdapter.h_conn KuzuAdapter.h_kuzu]. unfold_js.
  destruct nodes as [n|e], edges as [m|e'], hk as [fs|], hc as [c|]; cbn;
    repeat first
      [ solve [eexists _, _; reflexivity]
      | answer
      | match goal with
        | |- context [match ?q with ResEnd => _ | ResRow _ _ => _ | ResFail _ => _ end] =>
            is_var q; destruct q; cbn
        end ].
Qed.

(** C3 (as amended): once initialization has succeeded, the bulk load never
    raises. Whatever the two serializer calls return, the first call that the
    engine fails among the writes of the staging files, the COPY statements
    and the count query (the removals of stale files apart, whose failures are
    ignored) makes the result [{success: false, count: 0}]; so does a failure
    of a serializer call, and a cursor of the count query that fails. When
    none fails the result is [{success: true, count: N}], with [N] read from
    the row that the count query returned. A failure of initialization itself
    is raised to the caller. The source's [loadGraphToKuzu] is the instance
    for the texts of [generateNodeCSV] and [generateEdgeCSV]. *)
Theorem loadGraphToKuzu_absorbs_failures
    (env : Env) (graph : CsvGenerator.KnowledgeGraph) (fc : gmap jsstring jsstring)
    (w : World) :
  (forall w', KuzuAdapter.loadGraphToKuzu env graph fc w'
            = BulkLoad.loadGraphToKuzu_from env
                (Ok (CsvGenerator.generateNodeCSV graph fc))
                (Ok (CsvGenerator.generateEdgeCSV graph)) w')
  /\ (forall nodes edges e w1,
        KuzuAdapter.initKuzu env w = (Throw e, w1) ->
        BulkLoad.loadGraphToKuzu_from env nodes edges w = (Throw e, w1))
  /\ (forall nodes edges h w1,
        KuzuAdapter.initKuzu env w = (Ok h, w1) ->
        (exists r w2, BulkLoad.loadGraphToKuzu_from env nodes edges w = (Ok r, w2))
        /\ ((exists e, nodes = Throw e) \/ (exists e, edges = Throw e) ->
            BulkLoad.loadGraphToKuzu_from env nodes edges w
            = (Ok {| KuzuAdapter.success := false; KuzuAdapter.count := Int 0 |}, w1)))
  /\ (forall nodesCSV edgesCSV h w1 fs c,
        KuzuAdapter.initKuzu env w = (Ok h, w1) ->
        KuzuAdapter.h_kuzu h = Some fs ->
        KuzuAdapter.h_conn h = Some c ->
        (forall k,
           BulkLoad.first_failure env (log w1)
             (BulkLoad.load_calls env fs c nodesCSV edgesCSV) k ->
           fst (BulkLoad.loadGraphToKuzu_from env (Ok nodesCSV) (Ok edgesCSV) w)
           = Ok {| KuzuAdapter.success := false; KuzuAdapter.count := Int 0 |})
        /\ (forall countRes,
              BulkLoad.no_failure env (log w1)
                (BulkLoad.load_calls env fs c nodesCSV edgesCSV) ->
              respond env QueryResult
                (log w1 ++ take 6 (BulkLoad.load_calls env fs c nodesCSV edgesCSV))
                (ConnQuery c (KuzuAdapter.count_nodes_statement env)) = inr countRes ->
              fst (BulkLoad.loadGraphToKuzu_from env (Ok nodesCSV) (Ok edgesCSV) w)
              = Ok (match countRes with
                    | ResFail _ =>
                        {| KuzuAdapter.success := false; KuzuAdapter.count := Int 0 |}
                    | _ =>
                        {| KuzuAdapter.success := true;
                           KuzuAdapter.count :=
                             KuzuAdapter.Number env
                               (KuzuAdapter.load_nodeCount (next_row countRes)) |}
                    end))).
Proof.
  split; [intros w'; apply loadGraphToKuzu_as_from|]. split; [|split].
  - intros nodes edges e w1 Hinit. unfold BulkLoad.loadGraphToKuzu_from.
    now apply bind_throw.
  - intros nodes edges h w1 Hinit. unfold BulkLoad.loadGraphToKuzu_from.
    rewrite (bind_ok _ _ _ _ _ Hinit). split.
    + apply load_after_init_never_raises.
    + apply load_after_init_serialization_failure.
  - intros nodesCSV edgesCSV h w1 fs c Hinit Hk Hc.
    unfold BulkLoad.loadGraphToKuzu_from. rewrite (bind_ok _ _ _ _ _ Hinit).
    destruct h as [hd hc hk]. cbn in Hk, Hc. subst hc hk. split.
    + intros k Hfirst.
      destruct (load_after_init_first_failure env fs c hd nodesCSV edgesCSV w1 k Hfirst)
        as (w2 & Hrun & _).
      now rewrite Hrun.
    + intros countRes Hnone Hcount.
      destruct (load_after_init_no_failure env fs c hd nodesCSV edgesCSV w1 countRes
                  Hnone Hcount) as (w2 & Hrun & _).
      now rewrite Hrun.
Qed.

Lemma ok_engine_no_failure (h0 : list AnyCall) (fs : KuzuModule) (c : Connection)
    (nodesCSV edgesCSV : jsstring) :
  BulkLoad.no_failure SampleEnv.ok h0
    (BulkLoad.load_calls SampleEnv.ok fs c nodesCSV edgesCSV).
Proof.
  intros i call Hi Hun.
  destruct i as [|[|[|[|[|[|[|[|[|i]]]]]]]]]; cbn in Hi; inversion Hi; subst call;
    try discriminate Hun; reflexivity.
Qed.

Lemma loadGraphToKuzu_absorbs_failures_witness :
  exists h w1,
    KuzuAdapter.initKuzu SampleEnv.ok initial_world = (Ok h, w1)
    /\ KuzuAdapter.h_kuzu h = Some (MkKuzuModule 0)
    /\ KuzuAdapter.h_conn h = Some (MkConnection 0)
    /\ fst (BulkLoad.loadGraphToKuzu_from SampleEnv.ok
              (Ok (CsvGenerator.generateNodeCSV SampleEnv.empty_graph ∅))
              (Ok (CsvGenerator.generateEdgeCSV SampleEnv.empty_graph)) initial_world)
       = Ok {| KuzuAdapter.success := true; KuzuAdapter.count := Int 3 |}.
Proof.
  eexists _, _. split; [reflexivity|]. split; [reflexivity|]. split; [reflexivity|].
  exact (proj2 (proj2 (proj2 (proj2
           (loadGraphToKuzu_absorbs_failures SampleEnv.ok SampleEnv.empty_graph ∅
              initial_world)))
           _ _ _ _ (MkKuzuModule 0) (MkConnection 0) eq_refl eq_refl eq_refl)
           SampleEnv.one_row (ok_engine_no_failure _ _ _ _ _) eq_refl).
Defined.

(** A count row [{cnt: n}] with [n] non-zero is reported as [n]. *)
Lemma load_nodeCount_of_cnt (env : Env) (row : JSObject) (rest : QueryResult) (n : Z) :
  row !! "cnt" = Some (JNum n) -> n <> 0 ->
  KuzuAdapter.Number env (KuzuAdapter.load_nodeCount (next_row (ResRow row rest)))
  = Int n.
Proof.
  intros Hrow Hn. cbn. unfold KuzuAdapter.prop. rewrite Hrow.
  unfold KuzuAdapter.js_or. cbn.
  destruct (Z.eqb_spec n 0); [contradiction|]. cbn.
  destruct (Z.eqb_spec n 0); [contradiction|]. reflexivity.
Qed.

(** C3 (as stated) fails: with an engine whose module cannot be loaded, the
    first bulk load raises the loader's error to its caller. *)
Lemma loadGraphToKuzu_raises_when_init_fails :
  fst (KuzuAdapter.loadGraphToKuzu SampleEnv.no_module SampleEnv.empty_graph ∅
         initial_world)
  = Throw SampleEnv.engine_down.
Proof. reflexivity. Qed.

(** With an engine that fails every statement, initialization still succeeds
    (schema failures are ignored) and the load fails at the first COPY. *)
Example loadGraphToKuzu_copy_failure_run :
  fst (KuzuAdapter.loadGraphToKuzu MoreEnv.query_fails SampleEnv.empty_graph ∅
         initial_world)
  = Ok {| KuzuAdapter.success := false; KuzuAdapter.count := Int 0 |}.
Proof. reflexivity. Qed.

(** With a working engine the same call succeeds and reports the three rows
    of the verification query. *)
Example loadGraphToKuzu_ok_run :
  fst (KuzuAdapter.loadGraphToKuzu SampleEnv.ok SampleEnv.empty_graph ∅ initial_world)
  = Ok {| KuzuAdapter.success := true; KuzuAdapter.count := Int 3 |}.
Proof. reflexivity. Qed.

(** ** Lazy initialization *)

Lemma ensure_initialized_connected (env : Env) (w : World) (c : Connection) :
  conn w = Some c -> KuzuAdapter.ensure_initialized env w = (Ok tt, w).
Proof. intros Hc. unfold KuzuAdapter.ensure_initialized. unfold_js. now rewrite Hc. Qed.

Lemma ensure_initialized_uninitialized (env : Env) (w : World) :
  conn w = None ->
  KuzuAdapter.ensure_initialized env w
  = match KuzuAdapter.initKuzu env w with
    | (Ok _, w1) => (Ok tt, w1)
    | (Throw e, w1) => (Throw e, w1)
    end.
Proof.
  intros Hc. unfold KuzuAdapter.ensure_initialized, bind at 1, read. rewrite Hc.
  unfold bind, ret. now destruct (KuzuAdapter.initKuzu env w) as [[h|e] w1].
Qed.

(** An operation that starts with [if (!conn) await initKuzu()] behaves, on
    an adapter without connection, as the same operation called after
    [initKuzu()]. *)
Lemma guarded_operation_initializes {A : Type} (env : Env) (body : M A) (w : World) :
  conn w = None ->
  bind (KuzuAdapter.ensure_initialized env) (fun _ => body) w
  = bind (KuzuAdapter.initKuzu env)
      (fun _ => bind (KuzuAdapter.ensure_initialized env) (fun _ => body)) w.
Proof.
  intros Hc. unfold bind at 1 2. rewrite (ensure_initialized_uninitialized env w Hc).
  destruct (KuzuAdapter.initKuzu env w) as [[h|e] w1] eqn:Hinit; [|reflexivity].
  destruct (initKuzu_ok env w w1 h Hc Hinit) as (m & d & c & calls & _ & _ & Hc1 & _).
  unfold bind. now rewrite (ensure_initialized_connected env w1 c Hc1).
Qed.

Lemma loadGraphToKuzu_initializes
    (env : Env) (graph : CsvGenerator.KnowledgeGraph) (fc : gmap jsstring jsstring)
    (w : World) :
  conn w = None ->
  KuzuAdapter.loadGraphToKuzu env graph fc w
  = bind (KuzuAdapter.initKuzu env)
      (fun _ => KuzuAdapter.loadGraphToKuzu env graph fc) w.
Proof.
  intros Hc.
  destruct (KuzuAdapter.initKuzu env w) as [[h|e] w1] eqn:Hinit.
  - destruct (initKuzu_ok env w w1 h Hc Hinit)
      as (m & d & c & calls & Hm & Hd & Hc1 & Hh & _).
    rewrite (bind_ok _ (fun _ => KuzuAdapter.loadGraphToKuzu env graph fc) w w1 h Hinit).
    unfold KuzuAdapter.loadGraphToKuzu.
    rewrite (bind_ok _ _ w w1 h Hinit).
    rewrite (bind_ok _ _ _ _ _ (initKuzu_when_connected env w1 c Hc1)).
    rewrite Hm, Hd, Hc1, Hh. reflexivity.
  - rewrite (bind_throw _ (fun _ => KuzuAdapter.loadGraphToKuzu env graph fc) w w1 e Hinit).
    unfold KuzuAdapter.loadGraphToKuzu. now apply bind_throw.
Qed.

(** C8 (as amended): on an adapter that holds no connection, bulk load, ad
    hoc query, prepared execution and batched execution first run [initKuzu]
    (module load, instance and connection creation, schema creation) and then
    behave as on an initialized adapter; statistics answer [{0, 0}] and the
    readiness check answers [false], both without initializing anything. *)
Theorem operations_on_uninitialized_adapter (env : Env) (w : World) :
  conn w = None ->
  (forall graph fc,
     KuzuAdapter.loadGraphToKuzu env graph fc w
     = bind (KuzuAdapter.initKuzu env)
         (fun _ => KuzuAdapter.loadGraphToKuzu env graph fc) w)
  /\ (forall cypher,
        KuzuAdapter.executeQuery env cypher w
        = bind (KuzuAdapter.initKuzu env)
            (fun _ => KuzuAdapter.executeQuery env cypher) w)
  /\ (forall cypher params,
        KuzuAdapter.executePrepared env cypher params w
        = bind (KuzuAdapter.initKuzu env)
            (fun _ => KuzuAdapter.executePrepared env cypher params) w)
  /\ (forall cypher paramsList,
        KuzuAdapter.executeWithReusedStatement env cypher paramsList w
        = bind (KuzuAdapter.initKuzu env)
            (fun _ => KuzuAdapter.executeWithReusedStatement env cypher paramsList) w)
  /\ (forall h w1,
        KuzuAdapter.initKuzu env w = (Ok h, w1) ->
        KuzuAdapter.isKuzuReady w1 = true
        /\ exists m d c rest,
             log w1 = log w ++ [ev ImportKuzu; ev (KuzuInit m);
                                ev (NewDatabase m (lit ":memory:") (512 * 1024 * 1024));
                                ev (NewConnection m d);
                                ev (ConnQuery c (NODE_SCHEMA env))] ++ rest)
  /\ KuzuAdapter.getKuzuStats env w
     = (Ok {| KuzuAdapter.nodes := Int 0; KuzuAdapter.edges := Int 0 |}, w)
  /\ KuzuAdapter.isKuzuReady w = false.
Proof.
  intros Hc. repeat split.
  - intros graph fc. now apply loadGraphToKuzu_initializes.
  - intros cypher. now apply guarded_operation_initializes.
  - intros cypher params. now apply guarded_operation_initializes.
  - intros cypher paramsList. now apply guarded_operation_initializes.
  - destruct (initKuzu_ok env w w1 h Hc H)
      as (m & d & c & calls & Hm & Hd & Hc1 & _).
    unfold KuzuAdapter.isKuzuReady. now rewrite Hc1, Hd.
  - destruct (initKuzu_ok env w w1 h Hc H)
      as (m & d & c & calls & _ & _ & _ & _ & _ & _ & Hlog & _).
    now exists m, d, c, calls.
  - unfold KuzuAdapter.getKuzuStats. unfold_js. now rewrite Hc.
  - unfold KuzuAdapter.isKuzuReady. now rewrite Hc.
Qed.

Lemma operations_on_uninitialized_adapter_witness :
  conn initial_world = None
  /\ KuzuAdapter.executeQuery SampleEnv.ok (lit "MATCH (n) RETURN n") initial_world
     = bind (KuzuAdapter.initKuzu SampleEnv.ok)
         (fun _ => KuzuAdapter.executeQuery SampleEnv.ok (lit "MATCH (n) RETURN n"))
         initial_world.
Proof.
  assert (H : conn initial_world = None) by reflexivity.
  split; [exact H|].
  exact (proj1 (proj2 (operations_on_uninitialized_adapter SampleEnv.ok initial_world H))
           (lit "MATCH (n) RETURN n")).
Defined.

(** C8 (as stated) fails for statistics and for the readiness check: on a
    fresh adapter with a working engine, [getKuzuStats] answers [{0, 0}] and
    makes no call at all, where the same operation after [initKuzu] answers
    [{3, 3}]; [isKuzuReady] answers [false]. *)
Lemma getKuzuStats_does_not_initialize :
  KuzuAdapter.getKuzuStats SampleEnv.ok initial_world
  = (Ok {| KuzuAdapter.nodes := Int 0; KuzuAdapter.edges := Int 0 |}, initial_world)
  /\ fst (bind (KuzuAdapter.initKuzu SampleEnv.ok)
            (fun _ => KuzuAdapter.getKuzuStats SampleEnv.ok) initial_world)
     = Ok {| KuzuAdapter.nodes := Int 3; KuzuAdapter.edges := Int 3 |}
  /\ KuzuAdapter.getKuzuStats SampleEnv.ok initial_world
     <> bind (KuzuAdapter.initKuzu SampleEnv.ok)
          (fun _ => KuzuAdapter.getKuzuStats SampleEnv.ok) initial_world
  /\ KuzuAdapter.isKuzuReady initial_world = false
  /\ KuzuAdapter.isKuzuReady
       (snd (KuzuAdapter.initKuzu SampleEnv.ok initial_world)) = true.
Proof.
  split; [reflexivity|]. split; [reflexivity|]. split; [|split; reflexivity].
  intros H. apply (f_equal fst) in H. vm_compute in H. discriminate H.
Qed.

(** ** Semantic search *)

(** C9: while the engine is not ready or the embedding phase has not
    completed, [semanticSearch] and [semanticSearchWithContext] raise: the
    error says "Database not ready..." when the engine is not ready and
    "Embeddings not ready..." otherwise (or is the loader's error when the
    adapter module itself cannot be imported); no result, empty or not, is
    returned, and the search itself is never started. *)
Theorem semanticSearch_requires_ready
    (env : Env) (w : World) (query : jsstring) (k maxDistance hops : option float) :
  KuzuAdapter.isKuzuReady w = false \/ isEmbeddingComplete w = false ->
  (exists e w',
     IngestionWorker.semanticSearch env query k maxDistance w = (Throw e, w')
     /\ existsb is_search (log w') = existsb is_search (log w)
     /\ ((kuzuAdapter w = false /\ respond env unit (log w) ImportAdapter = inl e)
         \/ (KuzuAdapter.isKuzuReady w = false
             /\ e = {| message :=
                         lit "Database not ready. Please load a repository first." |})
         \/ (KuzuAdapter.isKuzuReady w = true
             /\ e = {| message :=
                         lit "Embeddings not ready. Please wait for embedding pipeline to complete." |})))
  /\ (exists e w',
        IngestionWorker.semanticSearchWithContext env query k hops w = (Throw e, w')
        /\ existsb is_search (log w') = existsb is_search (log w)
        /\ ((kuzuAdapter w = false /\ respond env unit (log w) ImportAdapter = inl e)
            \/ (KuzuAdapter.isKuzuReady w = false
                /\ e = {| message :=
                            lit "Database not ready. Please load a repository first." |})
            \/ (KuzuAdapter.isKuzuReady w = true
                /\ e = {| message :=
                            lit "Embeddings not ready. Please wait for embedding pipeline to complete." |})))
  /\ fst (IngestionWorker.semanticSearch env query k maxDistance w) <> Ok []
  /\ fst (IngestionWorker.semanticSearchWithContext env query k hops w) <> Ok [].
Proof.
  intros Hnot.
  assert (Hlog : forall c : AnyCall, is_search c = false ->
            existsb is_search (log w ++ [c]) = existsb is_search (log w)).
  { intros c Hcall. rewrite existsb_app. cbn. rewrite Hcall. now rewrite !orb_false_r. }
  unfold IngestionWorker.semanticSearch, IngestionWorker.semanticSearchWithContext,
    IngestionWorker.getKuzuAdapter, IngestionWorker.database_not_ready,
    IngestionWorker.embeddings_not_ready.
  unfold_js. unfold KuzuAdapter.isKuzuReady in *.
  destruct (kuzuAdapter w); cbn; [|answer];
    destruct (conn w), (db w); cbn;
    destruct (isEmbeddingComplete w); cbn;
    try (destruct Hnot; discriminate);
    (split; [|split; [|split; discriminate]]);
    (eexists _, _; split; [reflexivity|]; cbn; split; [auto|]; auto).
Qed.

Lemma semanticSearch_requires_ready_witness :
  (KuzuAdapter.isKuzuReady initial_world = false
   \/ isEmbeddingComplete initial_world = false)
  /\ fst (IngestionWorker.semanticSearch SampleEnv.ok (lit "parse config") None None
            initial_world) <> Ok [].
Proof.
  assert (H : KuzuAdapter.isKuzuReady initial_world = false
              \/ isEmbeddingComplete initial_world = false) by (left; reflexivity).
  split; [exact H|].
  exact (proj1 (proj2 (proj2 (semanticSearch_requires_ready SampleEnv.ok initial_world
                                (lit "parse config") None None None H)))).
Defined.

(** ** Batched execution *)

Lemma slice_window {A : Type} (l : list A) (i : Z) :
  0 <= i -> slice l i (i + 4) = take 4 (drop (Z.to_nat i) l).
Proof.
  intros Hi. unfold slice, rel_index.
  destruct (Z.ltb_spec i 0) as [?|_]; [lia|].
  destruct (Z.ltb_spec (i + 4) 0) as [?|_]; [lia|].
  set (len := Z.of_nat (length l)).
  destruct (Z.le_gt_cases i len) as [Hin|Hout].
  - rewrite (Z.min_l i len) by lia.
    destruct (Z.le_gt_cases (i + 4) len) as [H4|H4].
    + rewrite Z.min_l by lia. f_equal. lia.
    + rewrite Z.min_r by lia.
      rewrite (take_ge _ 4) by (rewrite length_drop; subst len; lia).
      apply take_ge. rewrite length_drop. subst len. lia.
  - rewrite !Z.min_r by lia. rewrite Z.sub_diag. cbn [Z.to_nat]. rewrite take_0.
    rewrite (drop_ge l (Z.to_nat i)) by (subst len; lia). now rewrite take_nil.
Qed.





(** The bound on the number of rounds is never the reason the loop stops:
    any two sufficient bounds give the same run, on every engine. *)
Lemma sub_batches_fuel
    (env : Env) (cypher : jsstring) (paramsList : list Params) (f1 f2 : nat) :
  forall (i : Z) (w : World),
    0 <= i ->
    Z.of_nat (length paramsList) - i <= 4 * Z.of_nat f1 ->
    Z.of_nat (length paramsList) - i <= 4 * Z.of_nat f2 ->
    KuzuAdapter.sub_batches env f1 cypher paramsList i w
    = KuzuAdapter.sub_batches env f2 cypher paramsList i w.
Proof.
  revert f2. induction f1 as [|f1 IH]; intros [|f2] i w Hi H1 H2;
    cbn [KuzuAdapter.sub_batches];
    destruct (Z.ltb_spec i (Z.of_nat (length paramsList))); try reflexivity; try lia.
  repeat (apply bind_ext; intros).
  unfold KuzuAdapter.SUB_BATCH_SIZE. apply IH; lia.
Qed.








(** The run on ten parameter sets, call by call. *)
Example ten_params_run :
  List.map kind_of
    (log (snd (KuzuAdapter.executeWithReusedStatement SampleEnv.ok
                 SampleEnv.set_embedding SampleEnv.ten_params SampleEnv.ready_world)))
  = let q := SampleEnv.set_embedding in
    let x := fun n => KExecute (SampleEnv.param n) in
    [ KPrepare q; x 1; x 2; x 3; x 4; KClose; KTick;
      KPrepare q; x 5; x 6; x 7; x 8; KClose; KTick;
      KPrepare q; x 9; x 10; KClose ].
Proof. vm_compute. reflexivity. Qed.

(** A failed preparation stops the batched call at once, and an execution
    that fails inside a sub-batch still releases the statement. *)
Example batched_execution_failure_releases :
  let run := KuzuAdapter.executeWithReusedStatement SampleEnv.execute_fails
               SampleEnv.set_embedding SampleEnv.ten_params SampleEnv.ready_world in
  fst run = Throw SampleEnv.engine_down
  /\ List.map kind_of (log (snd run))
     = [KPrepare SampleEnv.set_embedding; KExecute (SampleEnv.param 1); KClose].
Proof. vm_compute. split; reflexivity. Qed.






(** * Further properties *)

(** ** Sanitization and numbers *)

Lemma filter_idempotent {A : Type} (p : A -> bool) (l : list A) :
  List.filter p (List.filter p l) = List.filter p l.
Proof.
  induction l as [|x l IH]; [reflexivity|]. simpl.
  destruct (p x) eqn:E; simpl; rewrite ?E, IH; reflexivity.
Qed.

(** X1: sanitizing twice is sanitizing once, and no removed code unit is
    left in a sanitized string. *)
Theorem sanitizeUTF8_idempotent (s : jsstring) :
  CsvGenerator.sanitizeUTF8 (CsvGenerator.sanitizeUTF8 s) = CsvGenerator.sanitizeUTF8 s
  /\ Forall (fun c => SanitizeSpec.is_removed c = false) (CsvGenerator.sanitizeUTF8 s).
Proof.
  rewrite !sanitizeUTF8_filter. split; [apply filter_idempotent|].
  rewrite List.Forall_forall. intros c Hin. apply List.filter_In in Hin.
  destruct Hin as [_ Hc]. now apply negb_true_iff.
Qed.

Lemma string_of_uint_digits (d : Decimal.uint) :
  Forall digit_or_minus (lit (NilEmpty.string_of_uint d)).
Proof.
  induction d; cbn; constructor; try exact IHd; right; cbv; split; congruence.
Qed.

Lemma String_of_Z_digits (z : Z) : Forall digit_or_minus (String_of_Z z).
Proof.
  unfold String_of_Z. destruct (Z.to_int z) as [d|d]; cbn.
  - apply string_of_uint_digits.
  - constructor; [now left|apply string_of_uint_digits].
Qed.

(** X2: a numeric CSV field written for a safe integer (value and default
    within [-(2^53 - 1) .. 2^53 - 1], where [String] prints plain decimal)
    consists of decimal digits and minus signs only, so it holds no comma,
    quote or line break and needs no quoting. *)
Theorem escapeCSVNumber_plain (value : option Z) (defaultValue : Z) :
  safe_line value ->
  safe_integer defaultValue ->
  Forall (fun c => (c = 45%N \/ (48 <= c <= 57)%N)
                   /\ c <> CsvReader.COMMA /\ c <> LF /\ c <> DQUOTE)
    (CsvGenerator.escapeCSVNumber value defaultValue).
Proof.
  intros _ _.
  assert (H : forall z, Forall (fun c => (c = 45%N \/ (48 <= c <= 57)%N)
                   /\ c <> CsvReader.COMMA /\ c <> LF /\ c <> DQUOTE) (String_of_Z z)).
  { intros z. eapply List.Forall_impl; [|apply String_of_Z_digits].
    intros c Hc. split; [exact Hc|].
    unfold CsvReader.COMMA, LF, DQUOTE. destruct Hc as [->|Hc]; repeat split; lia. }
  destruct value; apply H.
Qed.

Lemma escapeCSVNumber_plain_witness :
  safe_line (Some 42)
  /\ safe_integer (-1)
  /\ Forall (fun c => (c = 45%N \/ (48 <= c <= 57)%N)
                      /\ c <> CsvReader.COMMA /\ c <> LF /\ c <> DQUOTE)
       (CsvGenerator.escapeCSVNumber (Some 42) (-1)).
Proof.
  assert (H1 : safe_line (Some 42)) by (cbn; unfold safe_integer; lia).
  assert (H2 : safe_integer (-1)) by (unfold safe_integer; lia).
  split; [exact H1|]. split; [exact H2|].
  exact (escapeCSVNumber_plain (Some 42) (-1) H1 H2).
Defined.

(** ** Reading the snapshots back *)

Lemma scan_boundary (m : CsvReader.Mode) (rest : jsstring) :
  m <> CsvReader.Quoted -> CsvReader.boundary rest ->
  CsvReader.scan m rest = CsvReader.scan CsvReader.Start rest.
Proof.
  intros Hm Hb. destruct rest as [|c r]; [now destruct m|].
  destruct Hb as [->| ->]; now destruct m.
Qed.

Lemma scan_quoted_body (t rest : jsstring) :
  CsvReader.boundary rest ->
  CsvReader.scan CsvReader.Quoted
    (replace_all DQUOTE [DQUOTE; DQUOTE] t ++ DQUOTE :: rest)
  = fold_right CsvReader.push (CsvReader.scan CsvReader.Start rest) t.
Proof.
  intros Hb. induction t as [|x t IH].
  - cbn [replace_all flat_map app fold_right CsvReader.scan]. rewrite N.eqb_refl.
    destruct rest as [|c r]; [reflexivity|].
    destruct (N.eqb_spec c DQUOTE) as [->|_].
    + destruct Hb as [Hb|Hb]; discriminate Hb.
    + now apply scan_boundary.
  - unfold replace_all in *. cbn [flat_map fold_right].
    destruct (N.eqb_spec x DQUOTE) as [->|Hx].
    + cbn [app CsvReader.scan]. rewrite N.eqb_refl. now rewrite IH.
    + cbn [app CsvReader.scan].
      destruct (N.eqb_spec x DQUOTE) as [?|_]; [contradiction|]. now rewrite IH.
Qed.

(** A quoted field is read as the sanitized string. *)
Lemma escapeCSVField_reads_as (s : jsstring) :
  CsvReader.reads_as (CsvGenerator.escapeCSVField (JStr s)) (CsvGenerator.sanitizeUTF8 s).
Proof.
  intros rest Hb. unfold CsvGenerator.escapeCSVField. cbn [String_of].
  rewrite <- !app_assoc. cbn [app CsvReader.scan].
  change (DQUOTE =? CsvReader.COMMA)%N with false.
  change (DQUOTE =? LF)%N with false. rewrite N.eqb_refl. cbv iota.
  now apply scan_quoted_body.
Qed.

Lemma scan_unquoted (u rest : jsstring) :
  Forall CsvReader.plain_unit u -> CsvReader.boundary rest ->
  CsvReader.scan CsvReader.Unquoted (u ++ rest)
  = fold_right CsvReader.push (CsvReader.scan CsvReader.Start rest) u.
Proof.
  intros Hu Hb. induction Hu as [|c u (Hc1 & Hc2 & Hc3) _ IH].
  - apply scan_boundary; [discriminate|exact Hb].
  - cbn [app CsvReader.scan fold_right].
    destruct (N.eqb_spec c CsvReader.COMMA); [contradiction|].
    destruct (N.eqb_spec c LF); [contradiction|].
    destruct (N.eqb_spec c DQUOTE); [contradiction|]. now rewrite IH.
Qed.

(** A text of plain code units is read as itself. *)
Lemma plain_reads_as (u : jsstring) :
  Forall CsvReader.plain_unit u -> CsvReader.reads_as u u.
Proof.
  intros Hu rest Hb.
  destruct Hu as [|c u (Hc1 & Hc2 & Hc3) Hu]; [reflexivity|].
  cbn [app CsvReader.scan fold_right].
  destruct (N.eqb_spec c CsvReader.COMMA); [contradiction|].
  destruct (N.eqb_spec c LF); [contradiction|].
  destruct (N.eqb_spec c DQUOTE); [contradiction|].
  now rewrite scan_unquoted.
Qed.

Lemma pushes_onto_field (v f : jsstring) (fs : list jsstring) (rs : list (list jsstring)) :
  fold_right CsvReader.push (Some ((f :: fs) :: rs)) v = Some (((v ++ f) :: fs) :: rs).
Proof. induction v as [|c v IH]; [reflexivity|]. cbn. now rewrite IH. Qed.

(** One record: cells joined by commas, followed by the end or by a line
    feed and the records that come after. *)
Lemma scan_record (cells : list (jsstring * jsstring)) (tail : jsstring)
    (after : list (list jsstring)) :
  Forall (fun c => CsvReader.reads_as (fst c) (snd c)) cells ->
  cells <> [] ->
  (tail = [] \/ exists more, tail = LF :: more) ->
  CsvReader.scan CsvReader.Start tail = Some ([[]] :: after) ->
  CsvReader.scan CsvReader.Start (join (lit ",") (List.map fst cells) ++ tail)
  = Some (List.map snd cells :: after).
Proof.
  intros Hcells Hne Htail Hafter.
  assert (Hb : CsvReader.boundary tail).
  { destruct Htail as [->|[more ->]]; [exact I|now right]. }
  induction Hcells as [|c cells Hc Hcells IH]; [contradiction|].
  destruct cells as [|c' cells].
  - cbn [List.map join]. rewrite (Hc tail Hb), Hafter, pushes_onto_field.
    now rewrite app_nil_r.
  - change (join (lit ",") (List.map fst (c :: c' :: cells)))
      with (fst c ++ [CsvReader.COMMA] ++ join (lit ",") (List.map fst (c' :: cells))).
    rewrite <- !app_assoc. cbn [app].
    rewrite (Hc (CsvReader.COMMA :: _) (or_introl eq_refl)). cbn [CsvReader.scan].
    rewrite N.eqb_refl. rewrite (IH ltac:(discriminate)). cbn [CsvReader.new_field].
    rewrite pushes_onto_field. now rewrite app_nil_r.
Qed.

(** A document: records joined by line feeds. *)
Lemma scan_document (rows : list (list (jsstring * jsstring))) :
  rows <> [] ->
  Forall (fun cells => cells <> []
                       /\ Forall (fun c => CsvReader.reads_as (fst c) (snd c)) cells) rows ->
  CsvReader.read_csv
    (join [LF] (List.map (fun cells => join (lit ",") (List.map fst cells)) rows))
  = Some (List.map (List.map snd) rows).
Proof.
  unfold CsvReader.read_csv. intros Hne Hrows.
  induction Hrows as [|cells rows (Hcne & Hcells) Hrows IH]; [contradiction|].
  destruct rows as [|cells' rows].
  - cbn [List.map join].
    rewrite <- (app_nil_r (join (lit ",") (List.map fst cells))).
    now apply scan_record; [| |left|].
  - set (f := fun cells0 : list (jsstring * jsstring) =>
                join (lit ",") (List.map fst cells0)) in *.
    change (join [LF] (List.map f (cells :: cells' :: rows)))
      with (f cells ++ [LF] ++ join [LF] (List.map f (cells' :: rows))).
    subst f. cbv beta. cbn [app].
    apply scan_record; [exact Hcells|exact Hcne|right; eauto|].
    cbn [CsvReader.scan]. change (LF =? CsvReader.COMMA)%N with false.
    rewrite N.eqb_refl. cbv iota.
    rewrite (IH ltac:(discriminate)). reflexivity.
Qed.

Lemma number_reads_as (value : option Z) (d : Z) :
  CsvReader.reads_as (CsvGenerator.escapeCSVNumber value d)
                     (CsvGenerator.escapeCSVNumber value d).
Proof.
  apply plain_reads_as.
  assert (H : forall z, Forall CsvReader.plain_unit (String_of_Z z)).
  { intros z. eapply List.Forall_impl; [|apply String_of_Z_digits].
    intros c Hc. unfold CsvReader.plain_unit, CsvReader.COMMA, LF, DQUOTE.
    destruct Hc as [->|Hc]; repeat split; lia. }
  destruct value; apply H.
Qed.

Lemma or_empty_id (s : jsstring) : CsvGenerator.or_empty s = s.
Proof. now destruct s. Qed.

(** X3: the edge snapshot reads back as the header record followed by one
    record per relationship, in order, holding the sanitized source id,
    target id and type, whatever commas, quotes or line breaks they contain. *)
Theorem generateEdgeCSV_reads_back (graph : CsvGenerator.KnowledgeGraph) :
  CsvReader.read_csv (CsvGenerator.generateEdgeCSV graph)
  = Some ([lit "from"; lit "to"; lit "type"]
          :: List.map (fun rel =>
                 [ CsvGenerator.sanitizeUTF8 (CsvGenerator.sourceId rel);
                   CsvGenerator.sanitizeUTF8 (CsvGenerator.targetId rel);
                   CsvGenerator.sanitizeUTF8 (CsvGenerator.type rel) ])
               (CsvGenerator.relationships graph)).
Proof.
  set (cells := fun rel =>
    [ (CsvGenerator.escapeCSVField (JStr (CsvGenerator.sourceId rel)),
       CsvGenerator.sanitizeUTF8 (CsvGenerator.sourceId rel));
      (CsvGenerator.escapeCSVField (JStr (CsvGenerator.targetId rel)),
       CsvGenerator.sanitizeUTF8 (CsvGenerator.targetId rel));
      (CsvGenerator.escapeCSVField (JStr (CsvGenerator.type rel)),
       CsvGenerator.sanitizeUTF8 (CsvGenerator.type rel)) ]).
  set (header := [(lit "from", lit "from"); (lit "to", lit "to"); (lit "type", lit "type")]).
  pose proof (scan_document (header :: List.map cells (CsvGenerator.relationships graph)))
    as Hdoc.
  cbn [List.map] in Hdoc. rewrite !List.map_map in Hdoc.
  unfold CsvGenerator.generateEdgeCSV. cbv zeta.
  etransitivity; [|etransitivity; [apply Hdoc|]].
  - reflexivity.
  - discriminate.
  - constructor.
    + split; [discriminate|].
      repeat constructor; apply plain_reads_as; repeat constructor; discriminate.
    + rewrite List.Forall_forall. intros row Hin. apply List.in_map_iff in Hin.
      destruct Hin as (rel & <- & _). split; [discriminate|].
      repeat constructor; apply escapeCSVField_reads_as.
  - reflexivity.
Qed.

(** X4: for a graph whose line numbers are safe integers, the node snapshot
    reads back as the header record followed by one record of seven fields per
    node, in order: the sanitized id, label, name and file path, the two line
    numbers in decimal ([-1] when absent), and the sanitized extracted
    content, line breaks in the content included. *)
Theorem generateNodeCSV_reads_back
    (graph : CsvGenerator.KnowledgeGraph) (fc : gmap jsstring jsstring) :
  safe_lines graph ->
  CsvReader.read_csv (CsvGenerator.generateNodeCSV graph fc)
  = Some ([lit "id"; lit "label"; lit "name"; lit "filePath";
           lit "startLine"; lit "endLine"; lit "content"]
          :: List.map (fun node =>
                 let p := CsvGenerator.properties node in
                 [ CsvGenerator.sanitizeUTF8 (CsvGenerator.id node);
                   CsvGenerator.sanitizeUTF8 (CsvGenerator.label node);
                   CsvGenerator.sanitizeUTF8 (CsvGenerator.name p);
                   CsvGenerator.sanitizeUTF8 (CsvGenerator.filePath p);
                   match CsvGenerator.startLine p with
                   | Some n => String_of_Z n
                   | None => lit "-1"
                   end;
                   match CsvGenerator.endLine p with
                   | Some n => String_of_Z n
                   | None => lit "-1"
                   end;
                   CsvGenerator.sanitizeUTF8 (CsvGenerator.extractContent node fc) ])
               (CsvGenerator.nodes graph)).
Proof.
  intros _.
  set (cells := fun node =>
    let p := CsvGenerator.properties node in
    [ (CsvGenerator.escapeCSVField (JStr (CsvGenerator.id node)),
       CsvGenerator.sanitizeUTF8 (CsvGenerator.id node));
      (CsvGenerator.escapeCSVField (JStr (CsvGenerator.label node)),
       CsvGenerator.sanitizeUTF8 (CsvGenerator.label node));
      (CsvGenerator.escapeCSVField (JStr (CsvGenerator.or_empty (CsvGenerator.name p))),
       CsvGenerator.sanitizeUTF8 (CsvGenerator.or_empty (CsvGenerator.name p)));
      (CsvGenerator.escapeCSVField (JStr (CsvGenerator.or_empty (CsvGenerator.filePath p))),
       CsvGenerator.sanitizeUTF8 (CsvGenerator.or_empty (CsvGenerator.filePath p)));
      (CsvGenerator.escapeCSVNumber (CsvGenerator.startLine p) (-1),
       CsvGenerator.escapeCSVNumber (CsvGenerator.startLine p) (-1));
      (CsvGenerator.escapeCSVNumber (CsvGenerator.endLine p) (-1),
       CsvGenerator.escapeCSVNumber (CsvGenerator.endLine p) (-1));
      (CsvGenerator.escapeCSVField (JStr (CsvGenerator.extractContent node fc)),
       CsvGenerator.sanitizeUTF8 (CsvGenerator.extractContent node fc)) ]).
  set (header := List.map (fun h : jsstring => (h, h))
                   [lit "id"; lit "label"; lit "name"; lit "filePath";
                    lit "startLine"; lit "endLine"; lit "content"]).
  pose proof (scan_document (header :: List.map cells (CsvGenerator.nodes graph)))
    as Hdoc.
  cbn [List.map] in Hdoc. rewrite !List.map_map in Hdoc.
  unfold CsvGenerator.generateNodeCSV. cbv zeta.
  etransitivity; [|etransitivity; [apply Hdoc|]].
  - reflexivity.
  - discriminate.
  - constructor.
    + split; [discriminate|].
      repeat constructor; apply plain_reads_as; repeat constructor; discriminate.
    + rewrite List.Forall_forall. intros row Hin. apply List.in_map_iff in Hin.
      destruct Hin as (node & <- & _). split; [discriminate|].
      repeat constructor;
        first [apply escapeCSVField_reads_as | apply number_reads_as].
  - f_equal. f_equal. apply List.map_ext. intros node. subst cells. cbv beta zeta.
    cbn [List.map snd]. rewrite !or_empty_id.
    unfold CsvGenerator.escapeCSVNumber.
    destruct (CsvGenerator.startLine _), (CsvGenerator.endLine _); reflexivity.
Qed.

Lemma generateNodeCSV_reads_back_witness :
  safe_lines MoreSamples.one_function_graph
  /\ CsvReader.read_csv
       (CsvGenerator.generateNodeCSV MoreSamples.one_function_graph Samples.text_files)
     = Some [ [lit "id"; lit "label"; lit "name"; lit "filePath";
               lit "startLine"; lit "endLine"; lit "content"];
              [lit "Function:a.py:f"; lit "Function"; lit "f"; lit "a.py";
               lit "1"; lit "1"; Samples.abc] ].
Proof.
  assert (H : safe_lines MoreSamples.one_function_graph).
  { repeat constructor; cbn; unfold safe_integer; lia. }
  split; [exact H|].
  rewrite (generateNodeCSV_reads_back MoreSamples.one_function_graph
             Samples.text_files H).
  reflexivity.
Defined.

(** ** More on binary detection and content extraction *)

(** X5: binary detection depends on the first 1,000 code units only. *)
Theorem isBinaryContent_sample_only (content : jsstring) :
  CsvGenerator.isBinaryContent content
  = CsvGenerator.isBinaryContent (take 1000 content).
Proof.
  rewrite (isBinaryContent_exact content), (isBinaryContent_exact (take 1000 content)).
  now rewrite take_take, Nat.min_id.
Qed.

(** X6: the content is empty when the node's file is unknown to the mapping,
    when the file is empty, and for every Folder node. *)
Theorem extractContent_empty_cases
    (node : CsvGenerator.GraphNode) (fc : gmap jsstring jsstring) :
  fc !! CsvGenerator.filePath (CsvGenerator.properties node) = None
  \/ fc !! CsvGenerator.filePath (CsvGenerator.properties node) = Some []
  \/ CsvGenerator.label node = lit "Folder" ->
  CsvGenerator.extractContent node fc = [].
Proof.
  intros H. unfold CsvGenerator.extractContent. cbv zeta.
  destruct H as [->|[->|Hfolder]]; try reflexivity.
  destruct (fc !! _) as [[|c content]|]; try reflexivity.
  now rewrite (bool_decide_eq_true_2 _ Hfolder).
Qed.

Lemma extractContent_empty_cases_witness :
  (Samples.text_files
     !! CsvGenerator.filePath (CsvGenerator.properties MoreSamples.folder_node) = None
   \/ Samples.text_files
        !! CsvGenerator.filePath (CsvGenerator.properties MoreSamples.folder_node)
      = Some []
   \/ CsvGenerator.label MoreSamples.folder_node = lit "Folder")
  /\ CsvGenerator.extractContent MoreSamples.folder_node Samples.text_files = [].
Proof.
  assert (H : Samples.text_files
     !! CsvGenerator.filePath (CsvGenerator.properties MoreSamples.folder_node) = None
   \/ Samples.text_files
        !! CsvGenerator.filePath (CsvGenerator.properties MoreSamples.folder_node)
      = Some []
   \/ CsvGenerator.label MoreSamples.folder_node = lit "Folder")
    by (right; right; reflexivity).
  split; [exact H|].
  exact (extractContent_empty_cases MoreSamples.folder_node Samples.text_files H).
Defined.

(** X7: for a File node whose content is present and not classified binary,
    the content is the whole file when it has at most 10,000 code units, and
    its first 10,000 code units followed by the truncation marker otherwise. *)
Theorem extractContent_file_node
    (node : CsvGenerator.GraphNode) (fc : gmap jsstring jsstring) (content : jsstring) :
  CsvGenerator.label node = lit "File" ->
  fc !! CsvGenerator.filePath (CsvGenerator.properties node) = Some content ->
  CsvGenerator.isBinaryContent content = false ->
  CsvGenerator.extractContent node fc
  = if 10000 <? Z.of_nat (length content)
    then take (Z.to_nat 10000) content ++ LF :: lit "... [truncated]"
    else content.
Proof.
  intros Hfile Hget Hbin. unfold CsvGenerator.extractContent. cbv zeta.
  rewrite Hget. destruct content as [|c content]; [reflexivity|].
  rewrite Hbin, Hfile.
  rewrite (bool_decide_eq_false_2 (lit "File" = lit "Folder")) by discriminate.
  rewrite (bool_decide_eq_true_2 (lit "File" = lit "File")) by reflexivity.
  unfold CsvGenerator.MAX_FILE_CONTENT. rewrite slice_prefix by lia. reflexivity.
Qed.

Lemma extractContent_file_node_witness :
  CsvGenerator.label MoreSamples.file_node = lit "File"
  /\ Samples.text_files
       !! CsvGenerator.filePath (CsvGenerator.properties MoreSamples.file_node)
     = Some Samples.abc
  /\ CsvGenerator.isBinaryContent Samples.abc = false
  /\ CsvGenerator.extractContent MoreSamples.file_node Samples.text_files
     = if 10000 <? Z.of_nat (length Samples.abc)
       then take (Z.to_nat 10000) Samples.abc ++ LF :: lit "... [truncated]"
       else Samples.abc.
Proof.
  assert (H1 : CsvGenerator.label MoreSamples.file_node = lit "File") by reflexivity.
  assert (H2 : Samples.text_files
                 !! CsvGenerator.filePath (CsvGenerator.properties MoreSamples.file_node)
               = Some Samples.abc) by reflexivity.
  assert (H3 : CsvGenerator.isBinaryContent Samples.abc = false) by reflexivity.
  split; [exact H1|]. split; [exact H2|]. split; [exact H3|].
  exact (extractContent_file_node MoreSamples.file_node Samples.text_files
           Samples.abc H1 H2 H3).
Defined.

(** X8: whatever the node and the files, the extracted content has at most
    10,000 code units plus the truncation marker. *)
Theorem extractContent_length_bound
    (node : CsvGenerator.GraphNode) (fc : gmap jsstring jsstring) :
  Z.of_nat (length (CsvGenerator.extractContent node fc))
  <= 10000 + Z.of_nat (length (LF :: lit "... [truncated]")).
Proof.
  destruct (decide (CsvGenerator.label node = lit "File")) as [Hfile|Hfile].
  - unfold CsvGenerator.extractContent. cbv zeta.
    destruct (fc !! _) as [[|c content]|]; try (cbn [length]; lia).
    rewrite (bool_decide_eq_true_2 _ Hfile).
    destruct (bool_decide _); [cbn [length]; lia|].
    destruct (CsvGenerator.isBinaryContent _); [cbv; discriminate|].
    unfold CsvGenerator.MAX_FILE_CONTENT.
    destruct (Z.ltb_spec 10000 (Z.of_nat (length (c :: content)))).
    + rewrite slice_prefix by lia. rewrite length_app, length_take.
      change (length CsvGenerator.truncation_marker)
        with (length (LF :: lit "... [truncated]")). lia.
    + lia.
  - pose proof (extractContent_length_code_element node fc Hfile) as H.
    change (length CsvGenerator.truncation_marker)
      with (length (LF :: lit "... [truncated]")) in H. lia.
Qed.

(** ** Lifecycle of the engine *)

(** X9: initialization is idempotent: once [initKuzu] has succeeded, calling
    it again makes no call, changes nothing and hands out the same handles. *)
Theorem initKuzu_idempotent (env : Env) (w w1 : World) (h : KuzuAdapter.Handles) :
  KuzuAdapter.initKuzu env w = (Ok h, w1) ->
  KuzuAdapter.initKuzu env w1 = (Ok h, w1).
Proof.
  intros Hinit. destruct (conn w) as [c|] eqn:Hc.
  - rewrite (initKuzu_when_connected env w c Hc) in Hinit.
    inversion Hinit; subst. now apply initKuzu_when_connected with (c := c).
  - destruct (initKuzu_ok env w w1 h Hc Hinit)
      as (m & d & c & calls & Hm & Hd & Hc1 & Hh & _).
    rewrite (initKuzu_when_connected env w1 c Hc1). now rewrite Hm, Hd, Hc1, Hh.
Qed.

Lemma initKuzu_idempotent_witness :
  exists h w1,
    KuzuAdapter.initKuzu SampleEnv.ok initial_world = (Ok h, w1)
    /\ KuzuAdapter.initKuzu SampleEnv.ok w1 = (Ok h, w1).
Proof.
  eexists _, _. split; [reflexivity|].
  apply (initKuzu_idempotent SampleEnv.ok initial_world). reflexivity.
Defined.

(** X10: a failed initialization leaves the adapter without connection (not
    ready), so that the next operation tries again; the error is that of the
    module import, of [init()], or of the construction of the database or of
    the connection, never that of a schema statement. *)
Theorem initKuzu_failure_leaves_uninitialized
    (env : Env) (w w1 : World) (e : Error) :
  conn w = None ->
  KuzuAdapter.initKuzu env w = (Throw e, w1) ->
  conn w1 = None
  /\ KuzuAdapter.isKuzuReady w1 = false
  /\ exists m d,
       log w1 = log w ++ [ev ImportKuzu]
       \/ log w1 = log w ++ [ev ImportKuzu; ev (KuzuInit m)]
       \/ log w1 = log w ++ [ev ImportKuzu; ev (KuzuInit m);
                             ev (NewDatabase m (lit ":memory:") (512 * 1024 * 1024))]
       \/ log w1 = log w ++ [ev ImportKuzu; ev (KuzuInit m);
                             ev (NewDatabase m (lit ":memory:") (512 * 1024 * 1024));
                             ev (NewConnection m d)].
Proof.
  intros Hc. unfold KuzuAdapter.initKuzu, KuzuAdapter.isKuzuReady. unfold_js.
  rewrite Hc.
  repeat answer; intros H; inversion H; subst; clear H; cbn; rewrite Hc;
    (split; [reflexivity|]); (split; [reflexivity|]);
    rewrite <- ?app_assoc; cbn [app].
  - exists (MkKuzuModule 0), (MkDatabase 0). now left.
  - eexists _, (MkDatabase 0). right. now left.
  - eexists _, (MkDatabase 0). right. right. now left.
  - eexists _, _. right. right. now right.
Qed.

Lemma initKuzu_failure_leaves_uninitialized_witness :
  exists w1,
    conn initial_world = None
    /\ KuzuAdapter.initKuzu SampleEnv.no_module initial_world
       = (Throw SampleEnv.engine_down, w1)
    /\ conn w1 = None.
Proof.
  eexists. split; [reflexivity|]. split; [reflexivity|].
  exact (proj1 (initKuzu_failure_leaves_uninitialized SampleEnv.no_module
                  initial_world _ SampleEnv.engine_down eq_refl eq_refl)).
Defined.

(** X11: failures of the schema statements are swallowed: as soon as the
    module, the database and the connection are obtained, [initKuzu] succeeds
    and the adapter is ready, whatever the three schema statements answer. *)
Theorem initKuzu_swallows_schema_failures
    (env : Env) (w : World) (m : KuzuModule) (d : Database) (c : Connection) :
  conn w = None ->
  respond env KuzuModule (log w) ImportKuzu = inr m ->
  respond env unit (log w ++ [ev ImportKuzu]) (KuzuInit m) = inr tt ->
  respond env Database (log w ++ [ev ImportKuzu; ev (KuzuInit m)])
    (NewDatabase m (lit ":memory:") (512 * 1024 * 1024)) = inr d ->
  respond env Connection
    (log w ++ [ev ImportKuzu; ev (KuzuInit m);
               ev (NewDatabase m (lit ":memory:") (512 * 1024 * 1024))])
    (NewConnection m d) = inr c ->
  exists w1,
    KuzuAdapter.initKuzu env w
    = (Ok {| KuzuAdapter.h_db := Some d; KuzuAdapter.h_conn := Some c;
             KuzuAdapter.h_kuzu := Some m |}, w1)
    /\ KuzuAdapter.isKuzuReady w1 = true.
Proof.
  intros Hc Himport Hinit Hdb Hconn.
  change (512 * 1024 * 1024) with KuzuAdapter.BUFFER_POOL_SIZE in Hdb, Hconn.
  unfold KuzuAdapter.initKuzu, KuzuAdapter.isKuzuReady. unfold_js.
  rewrite Hc, Himport. cbn. rewrite Hinit. cbn.
  rewrite <- !app_assoc. cbn [app]. rewrite Hdb. cbn.
  rewrite <- !app_assoc. cbn [app]. rewrite Hconn. cbn.
  repeat answer; eexists; split; reflexivity.
Qed.

Lemma initKuzu_swallows_schema_failures_witness :
  exists w1,
    KuzuAdapter.initKuzu MoreEnv.query_fails initial_world
    = (Ok {| KuzuAdapter.h_db := Some (MkDatabase 0);
             KuzuAdapter.h_conn := Some (MkConnection 0);
             KuzuAdapter.h_kuzu := Some (MkKuzuModule 0) |}, w1)
    /\ KuzuAdapter.isKuzuReady w1 = true.
Proof.
  exact (initKuzu_swallows_schema_failures MoreEnv.query_fails initial_world
           (MkKuzuModule 0) (MkDatabase 0) (MkConnection 0)
           eq_refl eq_refl eq_refl eq_refl eq_refl).
Defined.

Lemma closeKuzu_run (env : Env) (w : World) :
  exists w',
    KuzuAdapter.closeKuzu env w = (Ok tt, w')
    /\ conn w' = None /\ db w' = None /\ kuzu w' = None
    /\ kuzuAdapter w' = kuzuAdapter w
    /\ isEmbeddingComplete w' = isEmbeddingComplete w
    /\ log w'
       = log w
         ++ match conn w with Some c => [ev (ConnClose c)] | None => [] end
         ++ match db w with Some d => [ev (DbClose d)] | None => [] end.
Proof.
  unfold KuzuAdapter.closeKuzu. unfold_js.
  destruct (conn w) as [c|] eqn:Hc, (db w) as [d|] eqn:Hd; cbn;
    repeat first [progress (rewrite Hd; cbn) | answer];
    eexists; (split; [reflexivity|]); cbn; rewrite <- ?app_assoc, ?app_nil_r;
    repeat split; auto.
Qed.

(** X12: shutdown always completes: [closeKuzu] never raises, closes the
    connection and then the database (each only if held, each failure
    discarded), and leaves all three handles null, so the adapter is no
    longer ready. *)
Theorem closeKuzu_always_completes (env : Env) (w : World) :
  exists w',
    KuzuAdapter.closeKuzu env w = (Ok tt, w')
    /\ conn w' = None /\ db w' = None /\ kuzu w' = None
    /\ KuzuAdapter.isKuzuReady w' = false
    /\ log w'
       = log w
         ++ match conn w with Some c => [ev (ConnClose c)] | None => [] end
         ++ match db w with Some d => [ev (DbClose d)] | None => [] end.
Proof.
  destruct (closeKuzu_run env w) as (w' & Hrun & Hc & Hd & Hk & _ & _ & Hlog).
  exists w'. repeat split; auto. unfold KuzuAdapter.isKuzuReady. now rewrite Hc.
Qed.

(** X13: after a shutdown the adapter is back in its uninitialized state: a
    second shutdown makes no call, and a query issued after it initializes
    the engine again before running. *)
Theorem closeKuzu_then_operations (env : Env) (w : World) (cypher : jsstring) :
  (exists w',
     KuzuAdapter.closeKuzu env w = (Ok tt, w')
     /\ snd (KuzuAdapter.closeKuzu env w') = w')
  /\ bind (KuzuAdapter.closeKuzu env) (fun _ => KuzuAdapter.executeQuery env cypher) w
     = bind (KuzuAdapter.closeKuzu env)
         (fun _ => bind (KuzuAdapter.initKuzu env)
                     (fun _ => KuzuAdapter.executeQuery env cypher)) w.
Proof.
  destruct (closeKuzu_run env w) as (w' & Hrun & Hc & Hd & Hk & Ha & He & Hlog).
  split.
  - exists w'. split; [exact Hrun|].
    destruct (closeKuzu_run env w') as (w'' & Hrun' & Hc' & Hd' & Hk' & Ha' & He' & Hlog').
    rewrite Hrun'. cbn [snd]. rewrite Hc, Hd in Hlog'. cbn in Hlog'.
    rewrite app_nil_r in Hlog'.
    destruct w', w''; cbn in *; congruence.
  - rewrite !(bind_ok _ _ w w' tt Hrun).
    now apply guarded_operation_initializes.
Qed.

(** ** Statistics and queries *)

Lemma getKuzuStats_run (env : Env) (w : World) :
  exists r w' new,
    KuzuAdapter.getKuzuStats env w = (Ok r, w')
    /\ conn w' = conn w /\ db w' = db w /\ kuzu w' = kuzu w
    /\ kuzuAdapter w' = kuzuAdapter w
    /\ isEmbeddingComplete w' = isEmbeddingComplete w
    /\ log w' = log w ++ new
    /\ (length new <= 2)%nat
    /\ ((length new < 2)%nat ->
        r = {| KuzuAdapter.nodes := Int 0; KuzuAdapter.edges := Int 0 |}).
Proof.
  unfold KuzuAdapter.getKuzuStats. unfold_js.
  destruct (conn w) as [c|] eqn:Hc; cbn.
  - repeat first
      [ answer
      | match goal with
        | |- context [match ?q with ResEnd => _ | ResRow _ _ => _ | ResFail _ => _ end] =>
            is_var q; destruct q; cbn
        end ];
      eexists _, _, _; (split; [reflexivity|]); cbn; rewrite <- ?app_assoc; cbn [app];
      repeat split; auto; cbn; intros; lia.
  - exists {| KuzuAdapter.nodes := Int 0; KuzuAdapter.edges := Int 0 |}, w, [].
    rewrite app_nil_r. cbn. repeat split; auto.
Qed.

(** X14: statistics are advisory: [getKuzuStats] never raises and never
    touches the handles; it makes at most the two count queries, and whenever
    it could not make both it answers zero counts. *)
Theorem getKuzuStats_never_raises (env : Env) (w : World) :
  exists r w' new,
    KuzuAdapter.getKuzuStats env w = (Ok r, w')
    /\ conn w' = conn w /\ db w' = db w /\ kuzu w' = kuzu w
    /\ log w' = log w ++ new
    /\ (length new <= 2)%nat
    /\ ((length new < 2)%nat ->
        r = {| KuzuAdapter.nodes := Int 0; KuzuAdapter.edges := Int 0 |}).
Proof.
  destruct (getKuzuStats_run env w)
    as (r & w' & new & Hrun & Hc & Hd & Hk & _ & _ & Hlog & Hlen & Hzero).
  exists r, w', new. repeat split; auto.
Qed.

(** X15: when both count queries answer a row with a numeric [cnt] column,
    the statistics are those two numbers, zero included. *)
Theorem getKuzuStats_reads_counts
    (env : Env) (w : World) (c : Connection)
    (nodeRow edgeRow : JSObject) (nodeRest edgeRest : QueryResult) (n m : Z) :
  conn w = Some c ->
  respond env QueryResult (log w)
    (ConnQuery c (KuzuAdapter.count_nodes_statement env)) = inr (ResRow nodeRow nodeRest) ->
  respond env QueryResult
    (log w ++ [ev (ConnQuery c (KuzuAdapter.count_nodes_statement env))])
    (ConnQuery c (KuzuAdapter.count_edges_statement env)) = inr (ResRow edgeRow edgeRest) ->
  nodeRow !! "cnt" = Some (JNum n) ->
  edgeRow !! "cnt" = Some (JNum m) ->
  fst (KuzuAdapter.getKuzuStats env w)
  = Ok {| KuzuAdapter.nodes := Int n; KuzuAdapter.edges := Int m |}.
Proof.
  intros Hc Hnodes Hedges Hn Hm.
  unfold KuzuAdapter.getKuzuStats. unfold_js. rewrite Hc. cbn.
  rewrite Hnodes. cbn. rewrite Hedges. cbn.
  unfold KuzuAdapter.prop. now rewrite Hn, Hm.
Qed.

Lemma getKuzuStats_reads_counts_witness :
  fst (KuzuAdapter.getKuzuStats SampleEnv.ok SampleEnv.ready_world)
  = Ok {| KuzuAdapter.nodes := Int 3; KuzuAdapter.edges := Int 3 |}.
Proof.
  exact (getKuzuStats_reads_counts SampleEnv.ok SampleEnv.ready_world (MkConnection 0)
           {[ "cnt" := JNum 3 ]} {[ "cnt" := JNum 3 ]} ResEnd ResEnd 3 3
           eq_refl eq_refl eq_refl eq_refl eq_refl).
Defined.

Lemma collect_rows_acc (env : Env) (result : QueryResult) (acc : list JSObject) (w : World) :
  KuzuAdapter.collect_rows result acc w
  = (match cursor_rows result with
     | inr rows => Ok (acc ++ rows)
     | inl e => Throw e
     end, w).
Proof.
  revert acc. induction result as [|row rest IH|e]; intros acc; cbn.
  - unfold ret. now rewrite app_nil_r.
  - rewrite IH. destruct (cursor_rows rest); [reflexivity|].
    now rewrite <- app_assoc.
  - reflexivity.
Qed.

(** X16: on an initialized adapter [executeQuery] makes exactly one call, the
    query; it returns all rows of the cursor in order, and raises the
    engine's error when the query or the cursor fails. *)
Theorem executeQuery_returns_rows_or_raises
    (env : Env) (w : World) (c : Connection) (cypher : jsstring) :
  conn w = Some c ->
  KuzuAdapter.executeQuery env cypher w
  = (match respond env QueryResult (log w) (ConnQuery c cypher) with
     | inl e => Throw e
     | inr result =>
         match cursor_rows result with
         | inr rows => Ok rows
         | inl e => Throw e
         end
     end,
     record_call (ev (ConnQuery c cypher)) w).
Proof.
  intros Hc. unfold KuzuAdapter.executeQuery.
  rewrite (bind_ok _ _ _ _ _ (ensure_initialized_connected env w c Hc)).
  unfold_js. rewrite Hc. cbn.
  destruct (respond env QueryResult (log w) (ConnQuery c cypher)) as [e|result];
    [reflexivity|].
  rewrite (collect_rows_acc env). cbn.
  now destruct (cursor_rows result).
Qed.

Lemma executeQuery_returns_rows_or_raises_witness :
  conn SampleEnv.ready_world = Some (MkConnection 0)
  /\ fst (KuzuAdapter.executeQuery SampleEnv.ok (lit "MATCH (n) RETURN n")
            SampleEnv.ready_world)
     = Ok [ {[ "cnt" := JNum 3 ]} ].
Proof.
  assert (H : conn SampleEnv.ready_world = Some (MkConnection 0)) by reflexivity.
  split; [exact H|].
  rewrite (executeQuery_returns_rows_or_raises SampleEnv.ok SampleEnv.ready_world
             (MkConnection 0) (lit "MATCH (n) RETURN n") H).
  reflexivity.
Defined.

(** ** Prepared execution, further *)





(** ** Batched execution on any engine *)

(** One round of the loop, outcome by outcome. *)
Lemma sub_batches_round
    (env : Env) (fuel : nat) (cypher : jsstring) (paramsList : list Params)
    (i : Z) (w : World) (c : Connection) :
  conn w = Some c ->
  i < Z.of_nat (length paramsList) ->
  KuzuAdapter.sub_batches env (S fuel) cypher paramsList i w
  =     match respond env PreparedStatement (log w) (ConnPrepare c cypher) with
        | inl e => (Throw e, record_call (ev (ConnPrepare c cypher)) w)
        | inr stmt =>
            if isSuccess stmt then
              match KuzuAdapter.execute_each env c stmt (slice paramsList i (i + 4))
                      (record_call (ev (ConnPrepare c cypher)) w) with
              | (r2, w2) =>
                  match respond env unit (log w2) (StmtClose stmt) with
                  | inl e => (Throw e, record_call (ev (StmtClose stmt)) w2)
                  | inr _ =>
                      match r2 with
                      | Throw e => (Throw e, record_call (ev (StmtClose stmt)) w2)
                      | Ok _ =>
                          KuzuAdapter.sub_batches env fuel cypher paramsList (i + 4)
                            (if i + 4 <? Z.of_nat (length paramsList)
                             then record_call (ev SetTimeout0)
                                    (record_call (ev (StmtClose stmt)) w2)
                             else record_call (ev (StmtClose stmt)) w2)
                      end
                  end
              end
            else (Throw (KuzuAdapter.prepare_failed (getErrorMessage stmt)),
                  record_call (ev (ConnPrepare c cypher)) w)
        end.
Proof.
  intros Hc Hlt. cbn [KuzuAdapter.sub_batches].
  destruct (Z.ltb_spec i (Z.of_nat (length paramsList))); [|lia].
  unfold KuzuAdapter.SUB_BATCH_SIZE.
  unfold bind at 1, read. rewrite Hc.
  unfold bind at 1, deref, ret. unfold bind at 1, perform.
  destruct (respond env PreparedStatement (log w) (ConnPrepare c cypher)) as [e|stmt];
    [reflexivity|].
  destruct (isSuccess stmt); cbn [negb]; [|reflexivity].
  unfold bind at 1, ret. unfold bind at 1, try_finally.
  destruct (KuzuAdapter.execute_each env c stmt (slice paramsList i (i + 4))
              (record_call (ev (ConnPrepare c cypher)) w)) as [r2 w2].
  destruct (respond env unit (log w2) (StmtClose stmt)) as [e|[]]; [reflexivity|].
  destruct r2 as [[]|e]; [|reflexivity].
  unfold bind at 1.
  destruct (i + 4 <? Z.of_nat (length paramsList)); reflexivity.
Qed.

Lemma execute_each_cons
    (env : Env) (c : Connection) (stmt : PreparedStatement) (p : Params)
    (batch : list Params) (w : World) :
  KuzuAdapter.execute_each env c stmt (p :: batch) w
  = match respond env QueryResult (log w) (ConnExecute c stmt p) with
    | inl e => (Throw e, record_call (ev (ConnExecute c stmt p)) w)
    | inr _ =>
        KuzuAdapter.execute_each env c stmt batch
          (record_call (ev (ConnExecute c stmt p)) w)
    end.
Proof.
  cbn [KuzuAdapter.execute_each]. unfold bind, perform.
  now destruct (respond env QueryResult (log w) (ConnExecute c stmt p)).
Qed.

Lemma execute_each_any
    (env : Env) (c : Connection) (stmt : PreparedStatement) (batch : list Params)
    (w : World) :
  exists new pre post,
    log (snd (KuzuAdapter.execute_each env c stmt batch w)) = log w ++ new
    /\ conn (snd (KuzuAdapter.execute_each env c stmt batch w)) = conn w
    /\ List.map kind_of new = List.map KExecute pre
    /\ batch = pre ++ post
    /\ (forall u, fst (KuzuAdapter.execute_each env c stmt batch w) = Ok u -> post = []).
Proof.
  revert w. induction batch as [|p batch IH]; intros w.
  - exists [], [], []. cbn. rewrite app_nil_r. repeat split; auto.
  - rewrite execute_each_cons.
    destruct (respond env QueryResult (log w) (ConnExecute c stmt p)) as [e|r].
    + exists [ev (ConnExecute c stmt p)], [p], batch. cbn.
      repeat split; auto. intros u Hu. discriminate Hu.
    + destruct (IH (record_call (ev (ConnExecute c stmt p)) w))
        as (new & pre & post & Hlog & Hconn & Hkinds & Hsplit & Hok).
      exists (ev (ConnExecute c stmt p) :: new), (p :: pre), post.
      rewrite Hlog, Hconn. cbn. rewrite <- app_assoc, Hkinds.
      repeat split; auto. now rewrite Hsplit.
Qed.

Lemma executes_only (pre : list Params) :
  omap executed (List.map KExecute pre) = pre
  /\ List.filter is_close (List.map KExecute pre) = []
  /\ List.filter is_prepare (List.map KExecute pre) = [].
Proof.
  induction pre as [|p pre (IH1 & IH2 & IH3)]; [repeat split|].
  cbn. rewrite IH1. repeat split; assumption.
Qed.

Lemma prepared_stmts_app (env : Env) (a b h : list AnyCall) :
  prepared_stmts env h (a ++ b)
  = prepared_stmts env h a ++ prepared_stmts env (h ++ a) b.
Proof.
  revert h. induction a as [|call a IH]; intros h.
  - cbn. now rewrite app_nil_r.
  - cbn. rewrite IH, <- !app_assoc. reflexivity.
Qed.

Lemma closed_stmts_app (a b : list AnyCall) :
  closed_stmts (a ++ b) = closed_stmts a ++ closed_stmts b.
Proof. apply omap_app. Qed.

Lemma executions_no_stmts (env : Env) (new : list AnyCall) :
  forall pre, List.map kind_of new = List.map KExecute pre ->
  closed_stmts new = [] /\ forall h, prepared_stmts env h new = [].
Proof.
  induction new as [|[T call] new IH]; intros pre Hkinds; [split; reflexivity|].
  destruct pre as [|p pre]; [discriminate Hkinds|].
  destruct call; try discriminate Hkinds.
  cbn in Hkinds. injection Hkinds as _ Hkinds.
  destruct (IH pre Hkinds) as [Hcl Hpr].
  split; [exact Hcl|]. intros h. cbn. apply Hpr.
Qed.

(** The loop on any engine: the parameter sets handed to the engine are, in
    order and without gap or repetition, a prefix of what was left of the
    list; the statements released are those prepared with success, each once
    and in the order of preparation. *)
Lemma sub_batches_any
    (env : Env) (cypher : jsstring) (paramsList : list Params) (c : Connection) :
  forall (fuel : nat) (i : Z) (w : World),
    conn w = Some c -> 0 <= i ->
    Z.of_nat (length paramsList) - i <= 4 * Z.of_nat fuel ->
    exists new rest,
      log (snd (KuzuAdapter.sub_batches env fuel cypher paramsList i w)) = log w ++ new
      /\ drop (Z.to_nat i) paramsList = omap executed (List.map kind_of new) ++ rest
      /\ (prepares_always env ->
          length (List.filter is_close (List.map kind_of new))
          = length (List.filter is_prepare (List.map kind_of new)))
      /\ closed_stmts new = List.filter isSuccess (prepared_stmts env (log w) new).
Proof.
  induction fuel as [|fuel IH]; intros i w Hc Hi Hfuel.
  - exists [], (drop (Z.to_nat i) paramsList). cbn [KuzuAdapter.sub_batches].
    destruct (Z.ltb_spec i (Z.of_nat (length paramsList))); [lia|].
    cbn. rewrite app_nil_r. repeat split; auto.
  - destruct (Z.lt_ge_cases i (Z.of_nat (length paramsList))) as [Hlt|Hge].
    2:{ exists [], (drop (Z.to_nat i) paramsList). cbn [KuzuAdapter.sub_batches].
        destruct (Z.ltb_spec i (Z.of_nat (length paramsList))); [lia|].
        cbn. rewrite app_nil_r. repeat split; auto. }
    rewrite (sub_batches_round env fuel cypher paramsList i w c Hc Hlt).
    destruct (respond env PreparedStatement (log w) (ConnPrepare c cypher))
      as [e|stmt] eqn:Hprep.
    { exists [ev (ConnPrepare c cypher)], (drop (Z.to_nat i) paramsList).
      split; [reflexivity|]. split; [reflexivity|]. split.
      - intros Hall. destruct (Hall (log w) c cypher) as (s & Hs & _). congruence.
      - cbn. unfold prepared_stmt. cbn. now rewrite Hprep. }
    destruct (isSuccess stmt) eqn:Hok.
    2:{ exists [ev (ConnPrepare c cypher)], (drop (Z.to_nat i) paramsList).
        split; [reflexivity|]. split; [reflexivity|]. split.
        - intros Hall. destruct (Hall (log w) c cypher) as (s & Hs & Hs'). congruence.
        - cbn. unfold prepared_stmt. cbn. rewrite Hprep. cbn. now rewrite Hok. }
    rewrite slice_window by lia.
    set (batch := take 4 (drop (Z.to_nat i) paramsList)).
    destruct (execute_each_any env c stmt batch (record_call (ev (ConnPrepare c cypher)) w))
      as (new2 & pre & post & Hlog2 & Hconn2 & Hkinds2 & Hsplit & Hall2).
    destruct (KuzuAdapter.execute_each env c stmt batch
                (record_call (ev (ConnPrepare c cypher)) w)) as [r2 w2].
    cbn [fst snd] in *.
    destruct (executes_only pre) as (Hex & Hcl & Hpr).
    destruct (executions_no_stmts env new2 pre Hkinds2) as (Hcs2 & Hps2).
    assert (Hdrop : drop (Z.to_nat i) paramsList
                    = batch ++ drop (Z.to_nat (i + 4)) paramsList).
    { subst batch. replace (Z.to_nat (i + 4)) with (Z.to_nat i + 4)%nat by lia.
      rewrite <- drop_drop. symmetry. apply take_drop. }
    assert (Hhead : forall tail,
              closed_stmts (ev (ConnPrepare c cypher) :: new2 ++ ev (StmtClose stmt) :: tail)
              = stmt :: closed_stmts tail
              /\ List.filter isSuccess
                   (prepared_stmts env (log w)
                      (ev (ConnPrepare c cypher) :: new2 ++ ev (StmtClose stmt) :: tail))
                 = stmt :: List.filter isSuccess
                             (prepared_stmts env
                                (log w ++ ev (ConnPrepare c cypher) :: new2
                                   ++ [ev (StmtClose stmt)]) tail)).
    { intros tail. split.
      - change (ev (ConnPrepare c cypher) :: new2 ++ ev (StmtClose stmt) :: tail)
          with ([ev (ConnPrepare c cypher)] ++ new2 ++ [ev (StmtClose stmt)] ++ tail).
        rewrite !closed_stmts_app, Hcs2. reflexivity.
      - change (ev (ConnPrepare c cypher) :: new2 ++ ev (StmtClose stmt) :: tail)
          with ([ev (ConnPrepare c cypher)] ++ new2 ++ [ev (StmtClose stmt)] ++ tail).
        rewrite !prepared_stmts_app, Hps2. cbn [app].
        cbn [prepared_stmts]. unfold prepared_stmt at 1 2. cbn [projT2 ev].
        rewrite Hprep. cbn [app]. rewrite <- !app_assoc. cbn [app List.filter].
        rewrite Hok. reflexivity. }
    assert (Hstop : exists new rest,
              log (record_call (ev (StmtClose stmt)) w2) = log w ++ new
              /\ drop (Z.to_nat i) paramsList
                 = omap executed (List.map kind_of new) ++ rest
              /\ length (List.filter is_close (List.map kind_of new))
                 = length (List.filter is_prepare (List.map kind_of new))
              /\ closed_stmts new
                 = List.filter isSuccess (prepared_stmts env (log w) new)).
    { exists (ev (ConnPrepare c cypher) :: new2 ++ [ev (StmtClose stmt)]),
        (post ++ drop (Z.to_nat (i + 4)) paramsList).
      split; [|split; [|split]].
      - cbn. rewrite Hlog2. cbn. rewrite <- !app_assoc. reflexivity.
      - cbn. rewrite !List.map_app, omap_app, Hkinds2, Hex.
        cbn. rewrite app_nil_r, Hdrop, Hsplit, <- app_assoc. reflexivity.
      - cbn. rewrite !List.map_app, !List.filter_app, Hkinds2, Hcl, Hpr. reflexivity.
      - destruct (Hhead []) as [H1 H2]. rewrite H1, H2. reflexivity. }
    destruct (respond env unit (log w2) (StmtClose stmt)) as [e|[]].
    { destruct Hstop as (new & rest & H1 & H2 & H3 & H4). exists new, rest. auto. }
    destruct r2 as [[]|e].
    2:{ destruct Hstop as (new & rest & H1 & H2 & H3 & H4). exists new, rest. auto. }
    specialize (Hall2 tt eq_refl). subst post. rewrite app_nil_r in Hsplit. subst pre.
    set (w4 := if i + 4 <? Z.of_nat (length paramsList)
               then record_call (ev SetTimeout0) (record_call (ev (StmtClose stmt)) w2)
               else record_call (ev (StmtClose stmt)) w2).
    assert (Hc4 : conn w4 = Some c).
    { subst w4. destruct (i + 4 <? _); cbn; now rewrite Hconn2. }
    destruct (IH (i + 4) w4 Hc4 ltac:(lia) ltac:(lia))
      as (new' & rest' & Hlog' & Hpre' & Hbal' & Hrel').
    set (tick := if i + 4 <? Z.of_nat (length paramsList) then [ev SetTimeout0] else []).
    exists (ev (ConnPrepare c cypher) :: new2 ++ ev (StmtClose stmt) :: tick ++ new'), rest'.
    assert (Hlog4 : log w4
                    = log w ++ ev (ConnPrepare c cypher) :: new2
                        ++ ev (StmtClose stmt) :: tick).
    { subst w4 tick. destruct (i + 4 <? _); cbn; rewrite Hlog2; cbn;
        rewrite <- !app_assoc; reflexivity. }
    assert (Htick : omap executed (List.map kind_of tick) = []
                    /\ List.filter is_close (List.map kind_of tick) = []
                    /\ List.filter is_prepare (List.map kind_of tick) = []
                    /\ closed_stmts tick = []
                    /\ forall h, prepared_stmts env h tick = []).
    { subst tick. destruct (i + 4 <? _); repeat split. }
    destruct Htick as (Ht1 & Ht2 & Ht3 & Ht4 & Ht5).
    split; [|split; [|split]].
    + rewrite Hlog', Hlog4. rewrite <- !app_assoc. cbn. now rewrite <- !app_assoc.
    + cbn. rewrite !List.map_app, omap_app. cbn.
      rewrite List.map_app, omap_app, Hkinds2, Hex, Ht1. cbn.
      rewrite Hdrop, Hpre'. now rewrite <- app_assoc.
    + intros Hall. specialize (Hbal' Hall). cbn.
      rewrite !List.map_app, !List.filter_app. cbn.
      rewrite !List.map_app, !List.filter_app, Hkinds2, Hcl, Hpr, Ht2, Ht3. cbn.
      rewrite ?length_app. cbn. lia.
    + destruct (Hhead (tick ++ new')) as [H1 H2]. rewrite H1, H2.
      rewrite closed_stmts_app, prepared_stmts_app, Ht4, Ht5, Hrel', Hlog4. cbn [app].
      f_equal. f_equal. f_equal. rewrite <- !app_assoc. cbn. now rewrite <- !app_assoc.
Qed.

Lemma execute_each_calls
    (env : Env) (c : Connection) (stmt : PreparedStatement) (batch : list Params)
    (w : World) :
  exists pre,
    log (snd (KuzuAdapter.execute_each env c stmt batch w))
    = log w ++ List.map (fun p => ev (ConnExecute c stmt p)) pre.
Proof.
  revert w. induction batch as [|p batch IH]; intros w.
  - exists []. cbn. now rewrite app_nil_r.
  - rewrite execute_each_cons.
    destruct (respond env QueryResult (log w) (ConnExecute c stmt p)) as [e|r].
    + now exists [p].
    + destruct (IH (record_call (ev (ConnExecute c stmt p)) w)) as (pre & Hlog).
      exists (p :: pre). rewrite Hlog. cbn. now rewrite <- app_assoc.
Qed.

Lemma one_at_a_time_executions
    (env : Env) (c : Connection) (stmt : PreparedStatement) (pre : list Params)
    (rest : list AnyCall) :
  forall h,
    one_at_a_time env (h ++ List.map (fun p => ev (ConnExecute c stmt p)) pre)
      (Some stmt) rest ->
    one_at_a_time env h (Some stmt)
      (List.map (fun p => ev (ConnExecute c stmt p)) pre ++ rest).
Proof.
  induction pre as [|p pre IH]; intros h Hrest.
  - cbn in *. now rewrite app_nil_r in Hrest.
  - cbn. split; [reflexivity|]. apply IH.
    cbn in Hrest. now rewrite <- app_assoc.
Qed.

(** The loop on any engine uses its statements one at a time. *)
Lemma sub_batches_one_at_a_time
    (env : Env) (cypher : jsstring) (paramsList : list Params) (c : Connection) :
  forall (fuel : nat) (i : Z) (w : World),
    conn w = Some c -> 0 <= i ->
    Z.of_nat (length paramsList) - i <= 4 * Z.of_nat fuel ->
    exists new,
      log (snd (KuzuAdapter.sub_batches env fuel cypher paramsList i w)) = log w ++ new
      /\ one_at_a_time env (log w) None new.
Proof.
  induction fuel as [|fuel IH]; intros i w Hc Hi Hfuel.
  - exists []. cbn [KuzuAdapter.sub_batches].
    destruct (Z.ltb_spec i (Z.of_nat (length paramsList))); [lia|].
    cbn. now rewrite app_nil_r.
  - destruct (Z.lt_ge_cases i (Z.of_nat (length paramsList))) as [Hlt|Hge].
    2:{ exists []. cbn [KuzuAdapter.sub_batches].
        destruct (Z.ltb_spec i (Z.of_nat (length paramsList))); [lia|].
        cbn. now rewrite app_nil_r. }
    rewrite (sub_batches_round env fuel cypher paramsList i w c Hc Hlt).
    destruct (respond env PreparedStatement (log w) (ConnPrepare c cypher))
      as [e|stmt] eqn:Hprep.
    { exists [ev (ConnPrepare c cypher)]. split; [reflexivity|].
      cbn. now rewrite Hprep. }
    destruct (isSuccess stmt) eqn:Hok.
    2:{ exists [ev (ConnPrepare c cypher)]. split; [reflexivity|].
        cbn. rewrite Hprep, Hok. now split. }
    set (batch := slice paramsList i (i + 4)).
    destruct (execute_each_calls env c stmt batch (record_call (ev (ConnPrepare c cypher)) w))
      as (pre & Hlog2).
    destruct (execute_each_any env c stmt batch (record_call (ev (ConnPrepare c cypher)) w))
      as (_ & _ & _ & _ & Hconn2 & _).
    destruct (KuzuAdapter.execute_each env c stmt batch
                (record_call (ev (ConnPrepare c cypher)) w)) as [r2 w2].
    cbn [fst snd] in *.
    set (execs := List.map (fun p => ev (ConnExecute c stmt p)) pre) in *.
    assert (Hhead : forall tail,
              one_at_a_time env
                (log w ++ ev (ConnPrepare c cypher) :: execs ++ [ev (StmtClose stmt)])
                None tail ->
              one_at_a_time env (log w) None
                (ev (ConnPrepare c cypher) :: execs ++ ev (StmtClose stmt) :: tail)).
    { intros tail Htail. cbn. rewrite Hprep, Hok. split; [reflexivity|].
      apply one_at_a_time_executions. cbn. split; [reflexivity|].
      rewrite <- !app_assoc. exact Htail. }
    assert (Hstop : exists new,
              log (record_call (ev (StmtClose stmt)) w2) = log w ++ new
              /\ one_at_a_time env (log w) None new).
    { exists (ev (ConnPrepare c cypher) :: execs ++ [ev (StmtClose stmt)]). split.
      - cbn. rewrite Hlog2. cbn. rewrite <- !app_assoc. reflexivity.
      - apply Hhead. reflexivity. }
    destruct (respond env unit (log w2) (StmtClose stmt)) as [e|[]]; [exact Hstop|].
    destruct r2 as [[]|e]; [|exact Hstop].
    set (w4 := if i + 4 <? Z.of_nat (length paramsList)
               then record_call (ev SetTimeout0) (record_call (ev (StmtClose stmt)) w2)
               else record_call (ev (StmtClose stmt)) w2).
    assert (Hc4 : conn w4 = Some c).
    { subst w4. destruct (i + 4 <? _); cbn; now rewrite Hconn2. }
    destruct (IH (i + 4) w4 Hc4 ltac:(lia) ltac:(lia)) as (new' & Hlog' & Hone').
    set (tick := if i + 4 <? Z.of_nat (length paramsList) then [ev SetTimeout0] else []).
    exists (ev (ConnPrepare c cypher) :: execs ++ ev (StmtClose stmt) :: tick ++ new').
    assert (Hlog4 : log w4
                    = log w ++ ev (ConnPrepare c cypher) :: execs
                        ++ ev (StmtClose stmt) :: tick).
    { subst w4 tick. destruct (i + 4 <? _); cbn; rewrite Hlog2; cbn;
        rewrite <- !app_assoc; reflexivity. }
    split.
    + rewrite Hlog', Hlog4. rewrite <- !app_assoc. cbn. now rewrite <- !app_assoc.
    + apply Hhead. rewrite Hlog4 in Hone'. subst tick.
      destruct (i + 4 <? _).
      * cbn [app one_at_a_time projT2 ev].
        repeat first [rewrite <- app_assoc | progress cbn [app]]. exact Hone'.
      * exact Hone'.
Qed.

Lemma prepared_stmts_all_succeed (env : Env) (calls : list AnyCall) :
  prepares_always env ->
  forall h, List.filter isSuccess (prepared_stmts env h calls)
            = prepared_stmts env h calls.
Proof.
  intros Hall. induction calls as [|[T call] calls IH]; intros h; [reflexivity|].
  cbn [prepared_stmts]. rewrite List.filter_app, IH. f_equal.
  destruct call as [| | | | |c q| | | | | | | | | |]; try reflexivity.
  unfold prepared_stmt. cbn [projT2].
  destruct (Hall h c q) as (stmt & Hs & Hok). rewrite Hs. cbn. now rewrite Hok.
Qed.

Lemma executeWithReusedStatement_connected
    (env : Env) (w : World) (c : Connection) (cypher : jsstring)
    (paramsList : list Params) :
  conn w = Some c ->
  exists new rest,
    log (snd (KuzuAdapter.executeWithReusedStatement env cypher paramsList w))
    = log w ++ new
    /\ paramsList = omap executed (List.map kind_of new) ++ rest
    /\ (prepares_always env ->
        length (List.filter is_close (List.map kind_of new))
        = length (List.filter is_prepare (List.map kind_of new)))
    /\ closed_stmts new = List.filter isSuccess (prepared_stmts env (log w) new)
    /\ one_at_a_time env (log w) None new.
Proof.
  intros Hc. unfold KuzuAdapter.executeWithReusedStatement.
  rewrite (bind_ok _ _ _ _ _ (ensure_initialized_connected env w c Hc)).
  destruct paramsList as [|p paramsList].
  - exists [], []. cbn. rewrite app_nil_r. repeat split.
  - destruct (sub_batches_any env cypher (p :: paramsList) c
                (length (p :: paramsList)) 0 w Hc ltac:(lia) ltac:(lia))
      as (new & rest & Hlog & Hpre & Hbal & Hrel).
    destruct (sub_batches_one_at_a_time env cypher (p :: paramsList) c
                (length (p :: paramsList)) 0 w Hc ltac:(lia) ltac:(lia))
      as (new' & Hlog' & Hone).
    assert (new' = new) as ->.
    { apply (app_inv_head (log w)). now rewrite <- Hlog, <- Hlog'. }
    exists new, rest. repeat split; auto.
Qed.

(** X19: whatever the engine answers, the batched call hands the parameter
    sets to the engine in input order, without gap or repetition: the
    executions it attempted are a prefix of the list. *)
Theorem executeWithReusedStatement_executes_prefix
    (env : Env) (w : World) (c : Connection) (cypher : jsstring)
    (paramsList : list Params) :
  conn w = Some c ->
  exists new rest,
    log (snd (KuzuAdapter.executeWithReusedStatement env cypher paramsList w))
    = log w ++ new
    /\ paramsList = omap executed (List.map kind_of new) ++ rest.
Proof.
  intros Hc.
  destruct (executeWithReusedStatement_connected env w c cypher paramsList Hc)
    as (new & rest & Hlog & Hpre & _).
  now exists new, rest.
Qed.

Lemma executeWithReusedStatement_executes_prefix_witness :
  conn SampleEnv.ready_world = Some (MkConnection 0)
  /\ exists new rest,
       log (snd (KuzuAdapter.executeWithReusedStatement SampleEnv.execute_fails
                   SampleEnv.set_embedding SampleEnv.ten_params SampleEnv.ready_world))
       = log SampleEnv.ready_world ++ new
       /\ SampleEnv.ten_params = omap executed (List.map kind_of new) ++ rest.
Proof.
  assert (H : conn SampleEnv.ready_world = Some (MkConnection 0)) by reflexivity.
  split; [exact H|].
  exact (executeWithReusedStatement_executes_prefix SampleEnv.execute_fails
           SampleEnv.ready_world (MkConnection 0) SampleEnv.set_embedding
           SampleEnv.ten_params H).
Defined.

(** X20: whatever the engine answers, the statements the batched call
    released are exactly the statements it prepared with success, each once
    and in the order of preparation, whether the call ends normally or with
    an error of a preparation, of an execution or of a release; a statement
    whose preparation failed is not released. The statements are used one at
    a time: each is released before the next is prepared and before the call
    ends, and every execution is of the statement then open. When the engine
    never fails to prepare, every prepared statement is released. *)
Theorem executeWithReusedStatement_releases_all
    (env : Env) (w : World) (c : Connection) (cypher : jsstring)
    (paramsList : list Params) :
  conn w = Some c ->
  exists new,
    log (snd (KuzuAdapter.executeWithReusedStatement env cypher paramsList w))
    = log w ++ new
    /\ closed_stmts new = List.filter isSuccess (prepared_stmts env (log w) new)
    /\ one_at_a_time env (log w) None new
    /\ (prepares_always env ->
        closed_stmts new = prepared_stmts env (log w) new
        /\ length (List.filter is_close (List.map kind_of new))
           = length (List.filter is_prepare (List.map kind_of new))).
Proof.
  intros Hc.
  destruct (executeWithReusedStatement_connected env w c cypher paramsList Hc)
    as (new & rest & Hlog & _ & Hbal & Hrel & Hone).
  exists new. split; [exact Hlog|]. split; [exact Hrel|]. split; [exact Hone|].
  intros Hall. split; [|now apply Hbal].
  rewrite Hrel. now apply prepared_stmts_all_succeed.
Qed.

Lemma execute_fails_prepares_always : prepares_always SampleEnv.execute_fails.
Proof. intros h c q. eexists. split; reflexivity. Qed.

Lemma executeWithReusedStatement_releases_all_witness :
  conn SampleEnv.ready_world = Some (MkConnection 0)
  /\ exists new,
       log (snd (KuzuAdapter.executeWithReusedStatement SampleEnv.execute_fails
                   SampleEnv.set_embedding SampleEnv.ten_params SampleEnv.ready_world))
       = log SampleEnv.ready_world ++ new
       /\ closed_stmts new
          = List.filter isSuccess
              (prepared_stmts SampleEnv.execute_fails (log SampleEnv.ready_world) new).
Proof.
  assert (H : conn SampleEnv.ready_world = Some (MkConnection 0)) by reflexivity.
  split; [exact H|].
  destruct (executeWithReusedStatement_releases_all SampleEnv.execute_fails
              SampleEnv.ready_world (MkConnection 0) SampleEnv.set_embedding
              SampleEnv.ten_params H) as (new & Hlog & Hrel & _).
  exists new. split; [exact Hlog|exact Hrel].
Defined.

(** Three runs on ten parameter sets: a working engine prepares and
    releases three statements; when the first execution fails, the one
    statement prepared is released; a statement whose preparation is rejected
    is not released. *)
Example executeWithReusedStatement_releases_runs :
  let stmt n := {| stmt_handle := n; isSuccess := true; getErrorMessage := [] |} in
  let run env :=
    KuzuAdapter.executeWithReusedStatement env SampleEnv.set_embedding
      SampleEnv.ten_params SampleEnv.ready_world in
  closed_stmts (log (snd (run SampleEnv.ok))) = [stmt 0; stmt 7; stmt 14]%nat
  /\ prepared_stmts SampleEnv.ok [] (log (snd (run SampleEnv.ok)))
     = [stmt 0; stmt 7; stmt 14]%nat
  /\ closed_stmts (log (snd (run SampleEnv.execute_fails))) = [stmt 0%nat]
  /\ prepared_stmts SampleEnv.execute_fails [] (log (snd (run SampleEnv.execute_fails)))
     = [stmt 0%nat]
  /\ closed_stmts (log (snd (run MoreEnv.prepare_rejected))) = []
  /\ List.map isSuccess
       (prepared_stmts MoreEnv.prepare_rejected []
          (log (snd (run MoreEnv.prepare_rejected)))) = [false].
Proof. repeat split; vm_compute; reflexivity. Qed.

(** ** The worker's query entry points *)

(** X21: unlike the adapter's [executeQuery], the worker's [runQuery] never
    initializes the engine: on an adapter that is not ready it raises
    "Database not ready..." (or the loader's error when the adapter module
    cannot be imported) and leaves the handles as they were. *)
Theorem runQuery_requires_ready (env : Env) (w : World) (cypher : jsstring) :
  KuzuAdapter.isKuzuReady w = false ->
  exists e w',
    IngestionWorkerApi.runQuery env cypher w = (Throw e, w')
    /\ conn w' = conn w /\ db w' = db w /\ kuzu w' = kuzu w
    /\ (log w' = log w \/ log w' = log w ++ [ev ImportAdapter])
    /\ ((kuzuAdapter w = false /\ respond env unit (log w) ImportAdapter = inl e)
        \/ e = {| message :=
                    lit "Database not ready. Please load a repository first." |}).
Proof.
  intros Hnot. unfold IngestionWorkerApi.runQuery, IngestionWorker.getKuzuAdapter,
    IngestionWorker.database_not_ready.
  unfold_js. unfold KuzuAdapter.isKuzuReady in *.
  destruct (kuzuAdapter w); cbn; [|answer];
    destruct (conn w) eqn:Hc, (db w) eqn:Hd; try discriminate Hnot; cbn;
    eexists _, _; (split; [reflexivity|]); cbn; repeat split; auto.
Qed.

Lemma runQuery_requires_ready_witness :
  KuzuAdapter.isKuzuReady initial_world = false
  /\ exists e w',
       IngestionWorkerApi.runQuery SampleEnv.ok (lit "MATCH (n) RETURN n") initial_world
       = (Throw e, w')
       /\ conn w' = None.
Proof.
  assert (H : KuzuAdapter.isKuzuReady initial_world = false) by reflexivity.
  split; [exact H|].
  destruct (runQuery_requires_ready SampleEnv.ok initial_world
              (lit "MATCH (n) RETURN n") H) as (e & w' & Hrun & Hc & _).
  exists e, w'. split; [exact Hrun|exact Hc].
Defined.

Arguments KuzuAdapter.getKuzuStats : simpl never.

(** X22: the worker's [isReady] and [getStats] never raise; [isReady]
    answers [true] only when both handles are held, and neither of them
    initializes the engine. *)
Theorem isReady_getStats_never_raise (env : Env) (w : World) :
  (exists b w',
     IngestionWorkerApi.isReady env w = (Ok b, w')
     /\ (b = true -> KuzuAdapter.isKuzuReady w = true)
     /\ conn w' = conn w)
  /\ (exists r w',
        IngestionWorkerApi.getStats env w = (Ok r, w')
        /\ conn w' = conn w).
Proof.
  split.
  - unfold IngestionWorkerApi.isReady, IngestionWorker.getKuzuAdapter. unfold_js.
    unfold KuzuAdapter.isKuzuReady.
    destruct (kuzuAdapter w); cbn; [|answer];
      eexists _, _; (split; [reflexivity|]); cbn; split; auto; discriminate.
  - unfold IngestionWorkerApi.getStats, IngestionWorker.getKuzuAdapter.
    unfold try_catch, bind, read, perform, ret, set_kuzuAdapter.
    destruct (kuzuAdapter w) eqn:Ha; cbn.
    + destruct (getKuzuStats_run env w) as (r & w' & new & Hrun & Hc & _).
      exists r, w'. now rewrite Hrun.
    + destruct (respond env unit (log w) ImportAdapter) as [e|[]]; cbn.
      * eexists _, _. split; reflexivity.
      * match goal with
        | |- context [KuzuAdapter.getKuzuStats env ?w0] =>
            destruct (getKuzuStats_run env w0) as (r & w' & new & Hrun & Hc & _)
        end.
        exists r, w'. rewrite Hrun. split; [reflexivity|exact Hc].
Qed.

(** ** The calls of a bulk load *)

Lemma first_failure_position
    (env : Env) (h0 : list AnyCall) (fs : KuzuModule) (c : Connection)
    (nodesCSV edgesCSV : jsstring) (k : nat) :
  BulkLoad.first_failure env h0 (BulkLoad.load_calls env fs c nodesCSV edgesCSV) k ->
  (2 <= k <= 6)%nat.
Proof.
  intros [(call & Hk & Hun & _) _]. unfold BulkLoad.load_calls in Hk.
  destruct k as [|[|[|[|[|[|[|[|[|k]]]]]]]]]; cbn in Hk; inversion Hk; subst call;
    try discriminate Hun; lia.
Qed.

(** X23: on an initialized adapter, and whatever the two snapshots are, a
    bulk load makes its calls in the order: remove both staging files, write
    both snapshots, COPY nodes, COPY edges, count, remove both staging files.
    It stops right after the first call that the engine fails (a write, a
    COPY or the count query; a failed removal is ignored): the calls made are
    then exactly the first [k + 1], so the staging files are not removed.
    When the engine fails none, all nine calls are made, unless the cursor of
    the count query fails, after which the run also stops without the two
    removals. When a serializer call raises, no call is made at all. The
    source's [loadGraphToKuzu] is the instance for the texts of
    [generateNodeCSV] and [generateEdgeCSV]. *)
Theorem loadGraphToKuzu_call_sequence
    (env : Env) (w w1 : World) (h : KuzuAdapter.Handles)
    (fs : KuzuModule) (c : Connection) (nodesCSV edgesCSV : jsstring) :
  KuzuAdapter.initKuzu env w = (Ok h, w1) ->
  KuzuAdapter.h_kuzu h = Some fs ->
  KuzuAdapter.h_conn h = Some c ->
  (forall graph fc,
     KuzuAdapter.loadGraphToKuzu env graph fc w
     = BulkLoad.loadGraphToKuzu_from env
         (Ok (CsvGenerator.generateNodeCSV graph fc))
         (Ok (CsvGenerator.generateEdgeCSV graph)) w)
  /\ (forall nodes edges,
        (exists e, nodes = Throw e) \/ (exists e, edges = Throw e) ->
        log (snd (BulkLoad.loadGraphToKuzu_from env nodes edges w)) = log w1)
  /\ (forall k,
     BulkLoad.first_failure env (log w1)
       (BulkLoad.load_calls env fs c nodesCSV edgesCSV) k ->
     (2 <= k <= 6)%nat
     /\ log (snd (BulkLoad.loadGraphToKuzu_from env (Ok nodesCSV) (Ok edgesCSV) w))
        = log w1 ++ take (S k) (BulkLoad.load_calls env fs c nodesCSV edgesCSV))
  /\ (forall countRes,
        BulkLoad.no_failure env (log w1)
          (BulkLoad.load_calls env fs c nodesCSV edgesCSV) ->
        respond env QueryResult
          (log w1 ++ take 6 (BulkLoad.load_calls env fs c nodesCSV edgesCSV))
          (ConnQuery c (KuzuAdapter.count_nodes_statement env)) = inr countRes ->
        log (snd (BulkLoad.loadGraphToKuzu_from env (Ok nodesCSV) (Ok edgesCSV) w))
        = log w1
          ++ match countRes with
             | ResFail _ => take 7 (BulkLoad.load_calls env fs c nodesCSV edgesCSV)
             | _ => BulkLoad.load_calls env fs c nodesCSV edgesCSV
             end).
Proof.
  intros Hinit Hk Hc.
  split; [intros graph fc; apply loadGraphToKuzu_as_from|].
  split.
  { intros nodes edges Hraise.
    unfold BulkLoad.loadGraphToKuzu_from. rewrite (bind_ok _ _ _ _ _ Hinit).
    now rewrite (load_after_init_serialization_failure env nodes edges h w1 Hraise). }
  unfold BulkLoad.loadGraphToKuzu_from. rewrite (bind_ok _ _ _ _ _ Hinit).
  destruct h as [hd hc hk]. cbn in Hk, Hc. subst hc hk. split.
  - intros k Hfirst. split; [now apply first_failure_position in Hfirst|].
    destruct (load_after_init_first_failure env fs c hd nodesCSV edgesCSV w1 k Hfirst)
      as (w2 & Hrun & Hlog).
    now rewrite Hrun.
  - intros countRes Hnone Hcount.
    destruct (load_after_init_no_failure env fs c hd nodesCSV edgesCSV w1 countRes
                Hnone Hcount) as (w2 & Hrun & Hlog).
    now rewrite Hrun.
Qed.

Lemma query_fails_first_failure (h0 : list AnyCall) (fs : KuzuModule) (c : Connection)
    (nodesCSV edgesCSV : jsstring) :
  BulkLoad.first_failure MoreEnv.query_fails h0
    (BulkLoad.load_calls MoreEnv.query_fails fs c nodesCSV edgesCSV) 4.
Proof.
  split.
  - eexists. split; [reflexivity|]. split; reflexivity.
  - intros i call Hi Hcall Hun.
    destruct i as [|[|[|[|i]]]]; try lia; cbn in Hcall; inversion Hcall; subst call;
      try discriminate Hun; reflexivity.
Qed.

Lemma loadGraphToKuzu_call_sequence_witness :
  exists h w1,
    KuzuAdapter.initKuzu MoreEnv.query_fails initial_world = (Ok h, w1)
    /\ KuzuAdapter.h_kuzu h = Some (MkKuzuModule 0)
    /\ KuzuAdapter.h_conn h = Some (MkConnection 0)
    /\ log (snd (BulkLoad.loadGraphToKuzu_from MoreEnv.query_fails
                   (Ok (lit "id")) (Ok (lit "from")) initial_world))
       = log w1
         ++ take 5 (BulkLoad.load_calls MoreEnv.query_fails (MkKuzuModule 0)
                      (MkConnection 0) (lit "id") (lit "from")).
Proof.
  eexists _, _. split; [reflexivity|]. split; [reflexivity|]. split; [reflexivity|].
  exact (proj2 (proj1 (proj2 (proj2
                  (loadGraphToKuzu_call_sequence MoreEnv.query_fails initial_world
                     _ _ (MkKuzuModule 0) (MkConnection 0) (lit "id") (lit "from")
                     eq_refl eq_refl eq_refl)))
                  4%nat (query_fails_first_failure _ _ _ _ _))).
Defined.
